(** * client/buck.py: resolving buck targets to link-tree directories

    A shallow embedding of [client/buck.py] and the properties of its
    attribution, output-location, build and orchestration code.

    Python [str] values are modelled as [string]; every [ascii] stands for
    the code point with the same number (0..255).  The bytes captured from a
    subprocess are taken already decoded, and the subprocess is taken to
    start: an undecodable capture and a buck executable that cannot be run
    are outside the model. *)

From Stdlib Require Import ZArith String Ascii List Bool.
From stdpp Require Import base decidable list strings sorting gmap pretty.

Local Open Scope list_scope.
Local Open Scope string_scope.

(** ** Python string primitives used by the module *)

Module Py.

(** [s.startswith(p)] *)
Definition startswith (s p : string) : bool := String.prefix p s.

(** [s[i:]] for [i >= 0] *)
Definition slice_from (i : nat) (s : string) : string :=
  substring i (String.length s - i) s.

(** [s[:-k]] for [k > 0] *)
Definition slice_to_neg (k : nat) (s : string) : string :=
  substring 0 (String.length s - k) s.

(** [s.endswith(p)] *)
Definition endswith (s p : string) : bool :=
  (String.length p <=? String.length s)%nat
  && String.eqb (slice_from (String.length s - String.length p) s) p.

(** [s.endswith((p1, p2, ...))] *)
Definition endswith_any (s : string) (ps : list string) : bool :=
  existsb (endswith s) ps.

(** [s.find(sub)]: the first index of [sub] in [s], or [-1] *)
Definition find (s sub : string) : Z :=
  match String.index 0 sub s with
  | Some i => Z.of_nat i
  | None => (-1)%Z
  end.

(** [s.replace(old, new)] for a non-empty [old]; [skip] counts the
    characters of a matched [old] still to be dropped. *)
Fixpoint replace_go (old new s : string) (skip : nat) : string :=
  match s with
  | EmptyString => EmptyString
  | String c s' =>
      match skip with
      | S k => replace_go old new s' k
      | O =>
          if String.prefix old s
          then new ++ replace_go old new s' (String.length old - 1)
          else String c (replace_go old new s' 0)
      end
  end.
Definition replace (s old new : string) : string := replace_go old new s 0.

(** [s.split(sep)] for a non-empty [sep]; [cur] is the current piece,
    reversed. *)
Fixpoint split_go (sep s : string) (skip : nat) (cur : string) : list string :=
  match s with
  | EmptyString => [String.rev cur]
  | String c s' =>
      match skip with
      | S k => split_go sep s' k cur
      | O =>
          if String.prefix sep s
          then String.rev cur :: split_go sep s' (String.length sep - 1) EmptyString
          else split_go sep s' 0 (String c cur)
      end
  end.
Definition split (s sep : string) : list string := split_go sep s 0 EmptyString.

(** [c.isspace()] on the code points below 256 *)
Definition isspace (c : ascii) : bool :=
  let n := nat_of_ascii c in
  ((9 <=? n) && (n <=? 13) || (28 <=? n) && (n <=? 32)
   || (n =? 133) || (n =? 160))%nat.

Fixpoint lstrip (s : string) : string :=
  match s with
  | EmptyString => EmptyString
  | String c s' => if isspace c then lstrip s' else s
  end.
Definition rstrip (s : string) : string := String.rev (lstrip (String.rev s)).
(** Every character of [s] is white space ([s] may be empty). *)
Fixpoint all_space (s : string) : bool :=
  match s with
  | EmptyString => true
  | String c s' => isspace c && all_space s'
  end.
(** [s.strip()] *)
Definition strip (s : string) : string := rstrip (lstrip s).

(** The line boundaries of [str.splitlines] below 256, [\r] apart. *)
Definition is_linebreak (c : ascii) : bool :=
  let n := nat_of_ascii c in
  ((n =? 10) || (n =? 11) || (n =? 12) || (n =? 28) || (n =? 29)
   || (n =? 30) || (n =? 133))%nat.

(** [s.splitlines()]; ["\r\n"] is one boundary, and a boundary at the
    very end opens no further line. *)
Fixpoint splitlines_go (s cur : string) : list string :=
  match s with
  | EmptyString =>
      match cur with EmptyString => [] | _ => [String.rev cur] end
  | String c s' =>
      if (nat_of_ascii c =? 13)%nat then
        match s' with
        | String c2 s'' =>
            if (nat_of_ascii c2 =? 10)%nat
            then String.rev cur :: splitlines_go s'' EmptyString
            else String.rev cur :: splitlines_go s' EmptyString
        | EmptyString => [String.rev cur]
        end
      else if is_linebreak c then String.rev cur :: splitlines_go s' EmptyString
      else splitlines_go s' (String c cur)
  end.
Definition splitlines (s : string) : list string := splitlines_go s EmptyString.

(** [sep.join(l)] *)
Definition join (sep : string) (l : list string) : string := String.concat sep l.

(** [l[-k:]] for [k > 0] *)
Definition last_n {A} (k : nat) (l : list A) : list A := drop (length l - k) l.

(** [filter(bool, l)] on strings: the non-empty ones *)
Definition filter_nonempty (l : list string) : list string :=
  List.filter (fun s => negb (String.eqb s EmptyString)) l.

(** [os.path.join(a, *p)] of posixpath *)
Definition path_join_step (path b : string) : string :=
  if startswith b "/" then b
  else if String.eqb path EmptyString || endswith path "/" then path ++ b
  else path ++ "/" ++ b.
Definition path_join (a : string) (p : list string) : string :=
  fold_left path_join_step p a.

(** [sorted(l)] on strings: code-point lexicographic order.  The order is
    total and antisymmetric, so the sorted list does not depend on the
    sorting algorithm. *)
Definition sorted (l : list string) : list string := merge_sort String.le l.

End Py.

(** ** Target attribution (lines 142-162) *)

(** The test of one original pattern against one unbuilt target: the
    condition under which the inner loop assigns [name = original]. *)
Definition matches (original target : string) : bool :=
  if Py.endswith original "/..."
  then Py.startswith target (Py.slice_to_neg 4 original)
  else String.eqb target original.

(** One iteration of [for original in original_targets]. *)
Definition scan_original (target : string) (name : option string)
    (original : string) : option string :=
  if Py.endswith original "/..." then
    if Py.startswith target (Py.slice_to_neg 4 original) then Some original
    else name
  else
    if String.eqb target original then Some original else name.

(** The inner loop, started from [name = None]. *)
Definition scan_originals (target : string) (original_targets : list string)
    : option string :=
  fold_left (scan_original target) original_targets None.

(** The name added to [mapped_targets] for one unbuilt target. *)
Definition mapped_name (target : string) (original_targets : list string)
    : string :=
  match scan_originals target original_targets with
  | None => target
  | Some name => name
  end.

(** [mapped_targets] after the outer loop. *)
Definition mapped_targets (unbuilt_targets original_targets : list string)
    : gset string :=
  fold_left (fun acc target => acc ∪ {[ mapped_name target original_targets ]})
    unbuilt_targets ∅.

(** [list(mapped_targets)]: Python fixes no order for the elements of a
    set, so only membership in the result is meaningful. *)
Definition _map_normalized_targets_to_original
    (unbuilt_targets original_targets : list string) : list string :=
  elements (mapped_targets unbuilt_targets original_targets).

(** ** Exceptions, log records and external collaborators *)

Inductive exn : Type :=
  | BuckException (message : string)
  | Exception (message : string)
  | AttributeError (message : string).

Inductive level : Type := INFO | WARNING | ERROR.

(** [subprocess.check_output(command, stderr=PIPE)]: the captured standard
    output on exit code zero, [CalledProcessError] otherwise. *)
Inductive completed : Type :=
  | Returned (stdout : string)
  | CalledProcessError (returncode : Z) (stderr : string).

(** The same call with [timeout=...], which may also raise
    [TimeoutExpired]; its [stderr] is [None] when the child had written
    nothing to standard error by then. *)
Inductive timed : Type :=
  | Finished (c : completed)
  | TimeoutExpired (stderr : option string).

(** The calls that leave the module, in the order they are made. *)
Inductive event : Type :=
  | Ev_check_output (command : list string) (timeout : option nat)
  | Ev_find_root (directory marker : string)
  | Ev_glob (pattern : string)
  | Ev_get_yes_no_input (question : string).

(** The world outside the module: the buck executable, the file system,
    the terminal.  [find_root] and [get_yes_no_input] are the functions the
    module imports from [.filesystem] and [.log]. *)
Record externals (World : Type) : Type := {
  check_output : list string -> World -> completed * World;
  check_output_timeout : list string -> nat -> World -> timed * World;
  os_getcwd : World -> string;
  find_root : string -> string -> World -> option string;
  glob_glob : string -> World -> list string;
  get_yes_no_input : string -> World -> bool * World;
  sys_argv0 : string
}.
Arguments check_output {World} _ _ _.
Arguments check_output_timeout {World} _ _ _ _.
Arguments os_getcwd {World} _ _.
Arguments find_root {World} _ _ _ _.
Arguments glob_glob {World} _ _ _.
Arguments get_yes_no_input {World} _ _ _.
Arguments sys_argv0 {World} _.

(** [BuckOut = namedtuple("BuckOut", "source_directories targets_not_found")] *)
Record BuckOut : Type := {
  source_directories : list string;
  targets_not_found : list string
}.

Record state (World : Type) : Type := {
  world : World;
  log : list (level * string);
  trace : list event
}.
Arguments world {World} _.
Arguments log {World} _.
Arguments trace {World} _.

Inductive outcome (A : Type) : Type :=
  | Raised (e : exn)
  | Value (a : A).
Arguments Raised {A} e.
Arguments Value {A} a.

(** Computations of the module: they read and change the world, append to
    the log and to the trace, and return or raise. *)
Definition M (World A : Type) : Type := state World -> outcome A * state World.

Definition ret {World A} (a : A) : M World A := fun s => (Value a, s).

Definition bind {World A B} (m : M World A) (k : A -> M World B) : M World B :=
  fun s =>
    match m s with
    | (Raised e, s') => (Raised e, s')
    | (Value a, s') => k a s'
    end.

Definition raise {World A} (e : exn) : M World A := fun s => (Raised e, s).

Declare Scope buck_scope.
Delimit Scope buck_scope with buck.
Notation "x <- m ;; k" := (bind m (fun x => k))
  (at level 100, m at next level, right associativity) : buck_scope.
Notation "m ;;; k" := (bind m (fun _ => k))
  (at level 100, right associativity) : buck_scope.
Local Open Scope buck_scope.

Definition LOG {World} (lvl : level) (message : string) : M World unit :=
  fun s => (Value tt,
            {| world := world s; log := (log s ++ [(lvl, message)])%list;
               trace := trace s |}).

Definition emit {World} (ev : event) : M World unit :=
  fun s => (Value tt,
            {| world := world s; log := log s; trace := (trace s ++ [ev])%list |}).

Definition nl : string := String "010" EmptyString.

Definition excluded_suffixes : list string :=
  ["-vs_debugger#link-tree"; "-interp#link-tree"; "-ipython#link-tree"].

Section Buck.
Context {World : Type} (E : externals World).

Definition call_check_output (command : list string) : M World completed :=
  emit (Ev_check_output command None) ;;;
  fun s =>
    let (r, w) := check_output E command (world s) in
    (Value r, {| world := w; log := log s; trace := trace s |}).

Definition call_check_output_timeout (command : list string) (timeout : nat)
    : M World timed :=
  emit (Ev_check_output command (Some timeout)) ;;;
  fun s =>
    let (r, w) := check_output_timeout E command timeout (world s) in
    (Value r, {| world := w; log := log s; trace := trace s |}).

Definition call_find_root (marker : string) : M World (option string) :=
  fun s =>
    let cwd := os_getcwd E (world s) in
    (emit (Ev_find_root cwd marker) ;;; ret (find_root E cwd marker (world s))) s.

Definition call_glob (pattern : string) : M World (list string) :=
  emit (Ev_glob pattern) ;;;
  fun s => (Value (glob_glob E pattern (world s)), s).

Definition call_get_yes_no_input (question : string) : M World bool :=
  emit (Ev_get_yes_no_input question) ;;;
  fun s =>
    let (r, w) := get_yes_no_input E question (world s) in
    (Value r, {| world := w; log := log s; trace := trace s |}).

(** *** [_find_built_source_directories] (lines 35-67) *)

(** Lines 44-48: the path form of a target. *)
Definition target_path (target : string) : string :=
  let target_prefix_index := Py.find target "//" in
  let target_path :=
    if negb (target_prefix_index =? -1)%Z
    then Py.slice_from (Z.to_nat (target_prefix_index + 2)) target
    else target in
  Py.replace target_path ":" "/".

(** Lines 49-51: the argument of [glob.glob]. *)
Definition glob_pattern (buck_root target : string) : string :=
  Py.path_join buck_root
    ["buck-out/gen/"; (target_path target ++ "#*link-tree")%string].

Definition keep_tree (tree : string) : bool :=
  negb (Py.endswith_any tree excluded_suffixes).

(** Lines 43-66: the loop over the sorted targets. *)
Fixpoint scan_targets (buck_root : string) (targets : list string)
    (acc : BuckOut) : M World BuckOut :=
  match targets with
  | [] => ret acc
  | target :: rest =>
      discovered_source_directories <- call_glob (glob_pattern buck_root target) ;;
      let targets_not_found' :=
        if (length discovered_source_directories =? 0)%nat
        then (targets_not_found acc ++ [target])%list
        else targets_not_found acc in
      let source_directories' :=
        (source_directories acc
         ++ List.filter keep_tree discovered_source_directories)%list in
      scan_targets buck_root rest
        {| source_directories := source_directories';
           targets_not_found := targets_not_found' |}
  end.

Definition _find_built_source_directories (targets : list string)
    : M World BuckOut :=
  buck_root <- call_find_root ".buckconfig" ;;
  match buck_root with
  | None =>
      raise (Exception "No .buckconfig found in ancestors of the current directory.")
  | Some buck_root =>
      let targets := Py.sorted targets in
      scan_targets buck_root targets
        {| source_directories := []; targets_not_found := [] |}
  end.

(** *** [_normalize] (lines 70-120) *)

Definition _normalize (targets : list string) : M World (list string) :=
  LOG INFO ("Normalizing target" ++ (if (1 <? length targets)%nat then "s:" else "")
            ++ " `" ++ Py.join "`, `" targets ++ "`") ;;;
  let command :=
    (["buck"; "targets"; "--show-output"] ++ targets
     ++ ["--type"; "python_binary"; "python_test"])%list in
  r <- call_check_output_timeout command 600 ;;
  match r with
  | Finished (Returned stdout) =>
      let targets_to_destinations := Py.split (Py.strip stdout) nl in
      let targets_to_destinations := Py.filter_nonempty targets_to_destinations in
      (* [split] never returns an empty list, so [[0]] is its head *)
      let targets_to_destinations :=
        map (fun target => hd EmptyString (Py.split target " "))
          targets_to_destinations in
      match targets_to_destinations with
      | [] =>
          LOG WARNING "Provided targets do not contain any binary or unittest targets." ;;;
          ret []
      | _ =>
          LOG INFO ("Found " ++ pretty (length targets_to_destinations)
                    ++ " buck target"
                    ++ (if (1 <? length targets_to_destinations)%nat then "s" else "")
                    ++ ".") ;;;
          ret targets_to_destinations
      end
  | TimeoutExpired stderr =>
      match stderr with
      | None =>
          (* [error.stderr.decode()] on [None], before [LOG.error] is called *)
          raise (AttributeError "'NoneType' object has no attribute 'decode'")
      | Some stderr =>
          LOG ERROR ("Buck output so far: " ++ Py.strip stderr) ;;;
          raise (BuckException
                   ("Seems like `" ++ Py.join " " (take (length command - 1) command)
                    ++ "` is hanging." ++ nl
                    ++ "   Try running `buck clean` before trying again."))
      end
  | Finished (CalledProcessError _ stderr) =>
      LOG ERROR ("Buck returned error: " ++ Py.strip stderr) ;;;
      raise (BuckException
               "Could not normalize targets. Check the paths or run `buck clean`.")
  end.

(** *** [_build_targets] (lines 123-139) *)

Definition _build_targets (targets original_targets : list string)
    : M World unit :=
  LOG INFO ("Building target" ++ (if (1 <? length original_targets)%nat then "s:" else "")
            ++ " `" ++ Py.join "`, `" original_targets ++ "`") ;;;
  let command := (["buck"; "build"] ++ targets)%list in
  r <- call_check_output command ;;
  match r with
  | Returned _ => LOG WARNING "Finished building targets."
  | CalledProcessError _ stderr =>
      (* The output can be overwhelming, hence print only the last 20 lines. *)
      let lines := Py.splitlines stderr in
      LOG ERROR ("Buck returned error: " ++ Py.join nl (Py.last_n 20 lines)) ;;;
      raise (BuckException
               "Could not build targets. Check the paths or run `buck clean`.")
  end.

(** *** [generate_source_directories] (lines 165-194) *)

Definition nonempty {A} (l : list A) : bool :=
  match l with [] => false | _ => true end.

(** The message of the exception of lines 187-192. *)
Definition unresolved_message (message_targets : list string) : string :=
  "Could not find link trees for:" ++ nl ++ "    `"
  ++ Py.join ("    " ++ nl) message_targets ++ "`." ++ nl
  ++ "   See `" ++ sys_argv0 E ++ " --help` for more information.".

(** Lines 175-180: the retry, from the result of the first pass.  The pair
    holds the variables [buck_out] and [source_directories] (the latter is
    [directories] here, next to the field of the same name). *)
Definition retry (targets original_targets : list string) (build prompt : bool)
    (buck_out : BuckOut) (directories : list string)
    : M World (BuckOut * list string) :=
  if nonempty (targets_not_found buck_out) then
    go <- (if negb build && negb prompt then ret true
           else call_get_yes_no_input "Build target?") ;;
    if (go : bool) then
      (* Build all targets to ensure buck doesn't remove some link trees as we go. *)
      _build_targets targets original_targets ;;;
      buck_out <- _find_built_source_directories targets ;;
      ret (buck_out, source_directories buck_out)
    else ret (buck_out, directories)
  else ret (buck_out, directories).

(** Lines 182-194: the final check. *)
Definition finish (original_targets : list string)
    (buck_out : BuckOut) (directories : list string)
    : M World (list string) :=
  if nonempty (targets_not_found buck_out) then
    let message_targets :=
      _map_normalized_targets_to_original
        (targets_not_found buck_out) original_targets in
    raise (BuckException (unresolved_message message_targets))
  else ret directories.

Definition generate_source_directories (original_targets : list string)
    (build prompt : bool) : M World (list string) :=
  targets <- _normalize original_targets ;;
  (if build then _build_targets targets original_targets else ret tt) ;;;
  buck_out <- _find_built_source_directories targets ;;
  let directories := source_directories buck_out in
  r <- retry targets original_targets build prompt buck_out directories ;;
  finish original_targets (fst r) (snd r).

End Buck.

(** ** One locator pass as functions of the world

    The lists a pass of [_find_built_source_directories] computes over a
    world [w] with build root [buck_root], and the calls it makes. *)

Section Located.
Context {World : Type} (E : externals World).

Definition discovered (buck_root target : string) (w : World) : list string :=
  glob_glob E (glob_pattern buck_root target) w.

Definition located_directories (buck_root : string) (w : World)
    (targets : list string) : list string :=
  flat_map (fun target => List.filter keep_tree (discovered buck_root target w))
    targets.

Definition located_not_found (buck_root : string) (w : World)
    (targets : list string) : list string :=
  List.filter (fun target => (length (discovered buck_root target w) =? 0)%nat)
    targets.

Definition located (buck_root : string) (w : World) (targets : list string)
    : BuckOut :=
  {| source_directories := located_directories buck_root w targets;
     targets_not_found := located_not_found buck_root w targets |}.

End Located.

Definition glob_events (buck_root : string) (targets : list string) : list event :=
  map (fun target => Ev_glob (glob_pattern buck_root target)) targets.

Definition add_events {World} (s : state World) (evs : list event) : state World :=
  {| world := world s; log := log s; trace := (trace s ++ evs)%list |}.

Definition add_log {World} (s : state World) (records : list (level * string))
    : state World :=
  {| world := world s; log := (log s ++ records)%list; trace := trace s |}.

Definition set_world {World} (s : state World) (w : World) : state World :=
  {| world := w; log := log s; trace := trace s |}.

Definition is_prompt (ev : event) : bool :=
  match ev with Ev_get_yes_no_input _ => true | _ => false end.

(** How many times the prompt collaborator was called. *)
Definition prompts (tr : list event) : nat := length (List.filter is_prompt tr).

(** [s'] is reached from [s] without a call of the prompt collaborator. *)
Definition unprompted {World} (s s' : state World) : Prop :=
  exists evs, trace s' = (trace s ++ evs)%list /\ prompts evs = 0.

Definition build_command (targets : list string) : list string :=
  (["buck"; "build"] ++ targets)%list.

Definition query_command (targets : list string) : list string :=
  (["buck"; "targets"; "--show-output"] ++ targets
   ++ ["--type"; "python_binary"; "python_test"])%list.

(** ** A scripted world, to run the module on concrete inputs

    The world is the number of builds run so far; buck's replies, the build
    root, the link trees on disk before and after the first build and the
    user's answer are given by the script. *)

Record script : Type := {
  query_reply : timed;
  build_reply : completed;
  root : option string;
  trees_before : string -> list string;
  trees_after : string -> list string;
  answer : bool
}.

Definition scripted (sc : script) : externals nat := {|
  check_output := fun _ w => (build_reply sc, S w);
  check_output_timeout := fun _ _ w => (query_reply sc, w);
  os_getcwd := fun _ => "/repo/project";
  find_root := fun _ _ _ => root sc;
  glob_glob := fun pattern w =>
    if (w =? 0)%nat then trees_before sc pattern else trees_after sc pattern;
  get_yes_no_input := fun _ w => (answer sc, w);
  sys_argv0 := "pyre"
|}.

Definition initial : state nat := {| world := 0; log := []; trace := [] |}.

(** The link trees of [//app:bin], the interpreter variant included. *)
Definition app_trees (pattern : string) : list string :=
  if String.eqb pattern "/repo/buck-out/gen/app/bin#*link-tree"
  then ["/repo/buck-out/gen/app/bin#link-tree";
        "/repo/buck-out/gen/app/bin#link-tree-interp#link-tree"]
  else [].

(** Only the interpreter variant of [//app:bin] is on disk. *)
Definition interp_only (pattern : string) : list string :=
  if String.eqb pattern "/repo/buck-out/gen/app/bin#*link-tree"
  then ["/repo/buck-out/gen/app/bin#link-tree-interp#link-tree"]
  else [].

Definition no_trees (pattern : string) : list string := [].

Definition app_query : timed :=
  Finished (Returned ("//app:bin //app:bin.par" ++ nl)).

(** [//app:bin] is not built yet; a build succeeds and makes its trees. *)
Definition unbuilt_script : script := {|
  query_reply := app_query; build_reply := Returned "";
  root := Some "/repo"; trees_before := no_trees; trees_after := app_trees;
  answer := false
|}.

(** [//app:bin] is built already. *)
Definition built_script : script := {|
  query_reply := app_query; build_reply := Returned "";
  root := Some "/repo"; trees_before := app_trees; trees_after := app_trees;
  answer := false
|}.

(** Only the interpreter variant of [//app:bin] exists. *)
Definition interp_only_script : script := {|
  query_reply := app_query; build_reply := Returned "";
  root := Some "/repo"; trees_before := interp_only; trees_after := interp_only;
  answer := false
|}.

(** The build fails with a one-line diagnostic. *)
Definition failing_build_script : script := {|
  query_reply := app_query;
  build_reply := CalledProcessError 1 "undefined symbol";
  root := Some "/repo"; trees_before := no_trees; trees_after := no_trees;
  answer := true
|}.

(** No [.buckconfig] above the current directory. *)
Definition no_root_script : script := {|
  query_reply := app_query; build_reply := Returned "";
  root := None; trees_before := no_trees; trees_after := no_trees;
  answer := false
|}.

(** The query succeeds and prints nothing. *)
Definition empty_query_script : script := {|
  query_reply := Finished (Returned ""); build_reply := Returned "";
  root := Some "/repo"; trees_before := no_trees; trees_after := no_trees;
  answer := false
|}.

(** The query prints nothing and no build root is found. *)
Definition empty_query_no_root_script : script := {|
  query_reply := Finished (Returned ""); build_reply := Returned "";
  root := None; trees_before := no_trees; trees_after := no_trees;
  answer := false
|}.

(** The query prints nothing and [buck build], run without a target,
    exits non-zero. *)
Definition empty_query_failing_build_script : script := {|
  query_reply := Finished (Returned "");
  build_reply := CalledProcessError 1 "Must specify at least one build target.";
  root := Some "/repo"; trees_before := no_trees; trees_after := no_trees;
  answer := false
|}.

(** ** [presumed_target_root] (lines 25-31) *)

Definition presumed_target_root (target : string) : string :=
  let root_index := Py.find target "//" in
  let target :=
    if negb (root_index =? -1)%Z
    then Py.slice_from (Z.to_nat (root_index + 2)) target
    else target in
  let target := Py.replace target "/..." "" in
  (* [split] never returns an empty list, so [[0]] is its head *)
  hd EmptyString (Py.split target ":").

(** ** Vocabulary for the further properties *)

(** [c in s] for a character [c] *)
Fixpoint mem_char (c : ascii) (s : string) : bool :=
  match s with
  | EmptyString => false
  | String a s' => (if ascii_dec c a then true else false) || mem_char c s'
  end.

(** No character of [s] is white space. *)
Fixpoint no_space (s : string) : bool :=
  match s with
  | EmptyString => true
  | String c s' => negb (Py.isspace c) && no_space s'
  end.

(** A word: not empty, and free of white space. *)
Definition is_word (s : string) : bool :=
  negb (String.eqb s EmptyString) && no_space s.

(** One line of the query's output: the target, a space, its destination. *)
Definition output_line (entry : string * string) : string :=
  fst entry ++ " " ++ snd entry.

Definition query_event (targets : list string) : event :=
  Ev_check_output (query_command targets) (Some 600).

Definition build_event (targets : list string) : event :=
  Ev_check_output (build_command targets) None.

Definition prompt_event : event := Ev_get_yes_no_input "Build target?".

(** The calls of one locator pass that finds its build root. *)
Definition locate_events (cwd buck_root : string) (targets : list string)
    : list event :=
  Ev_find_root cwd ".buckconfig" :: glob_events buck_root (Py.sorted targets).

(** A call of [buck build ...]. *)
Definition is_build (ev : event) : bool :=
  match ev with
  | Ev_check_output (_ :: sub :: _) _ => String.eqb sub "build"
  | _ => false
  end.

(** How many times the build command was run. *)
Definition builds (tr : list event) : nat := length (List.filter is_build tr).

Definition is_glob (ev : event) : bool :=
  match ev with Ev_glob _ => true | _ => false end.

(** [s'] is reached from [s] with at most [p] prompts and [b] builds. *)
Definition calls_within {World} (p b : nat) (s s' : state World) : Prop :=
  exists evs, trace s' = (trace s ++ evs)%list
              /\ prompts evs <= p /\ builds evs <= b.

(** Two link trees of [//lib:a] and [//app:bin], found after a build. *)
Definition two_trees (pattern : string) : list string :=
  if String.eqb pattern "/repo/buck-out/gen/lib/a#*link-tree"
  then ["/repo/buck-out/gen/lib/a#link-tree"]
  else app_trees pattern.

(** The query times out. *)
Definition hanging_query_script : script := {|
  query_reply := TimeoutExpired (Some "  waiting for the daemon  ");
  build_reply := Returned "";
  root := Some "/repo"; trees_before := no_trees; trees_after := no_trees;
  answer := false
|}.

(** Two targets under one wildcard; nothing is built and the build makes
    no link tree. *)
Definition never_built_script : script := {|
  query_reply :=
    Finished (Returned ("//lib:a //lib:a.par" ++ nl ++ "//lib/x:b //lib/x:b.par" ++ nl));
  build_reply := Returned "";
  root := Some "/repo"; trees_before := no_trees; trees_after := no_trees;
  answer := true
|}.

(** Both the target and the destination of an output line are words. *)
Definition entry_ok (entry : string * string) : bool :=
  is_word (fst entry) && is_word (snd entry).

(** The query prints two lines, with a blank line before and after. *)
Definition two_line_query_script : script := {|
  query_reply :=
    Finished (Returned (nl ++ Py.join nl (map output_line
                                            [("//lib:a", "buck-out/gen/lib/a.par");
                                             ("//app:bin", "buck-out/gen/app/bin.par")])
                        ++ nl ++ nl));
  build_reply := Returned "";
  root := Some "/repo"; trees_before := two_trees; trees_after := two_trees;
  answer := false
|}.

(** [//app:bin] is not built yet; the user agrees to the build, which
    makes its trees. *)
Definition accepting_script : script := {|
  query_reply := app_query; build_reply := Returned "";
  root := Some "/repo"; trees_before := no_trees; trees_after := app_trees;
  answer := true
|}.

(** The query times out before buck has written anything to standard
    error. *)
Definition silent_hanging_query_script : script := {|
  query_reply := TimeoutExpired None;
  build_reply := Returned "";
  root := Some "/repo"; trees_before := no_trees; trees_after := no_trees;
  answer := false
|}.

(** The query exits non-zero. *)
Definition failing_query_script : script := {|
  query_reply := Finished (CalledProcessError 1 "No build file at lib/BUCK");
  build_reply := Returned "";
  root := Some "/repo"; trees_before := no_trees; trees_after := no_trees;
  answer := false
|}.

(** ** The primitives on examples *)

Example startswith_ex : Py.startswith "//a/b:c" "//a" = true.
Proof. reflexivity. Qed.
Example endswith_ex : Py.endswith "//a/..." "/..." = true.
Proof. reflexivity. Qed.
Example slice_ex : Py.slice_to_neg 4 "//a/..." = "//a".
Proof. reflexivity. Qed.
Example find_ex : Py.find "cell//a:b" "//" = 4%Z.
Proof. reflexivity. Qed.
Example find_none_ex : Py.find "a:b" "//" = (-1)%Z.
Proof. reflexivity. Qed.
Example replace_ex : Py.replace "a/b:c:d" ":" "/" = "a/b/c/d".
Proof. reflexivity. Qed.
Example replace_ex2 : Py.replace "//a/.../b/..." "/..." "" = "//a/b".
Proof. reflexivity. Qed.
Example split_ex : Py.split "//a:b //a:b.par" " " = ["//a:b"; "//a:b.par"].
Proof. reflexivity. Qed.
Example split_empty_ex : Py.split "" nl = [""].
Proof. reflexivity. Qed.
Example strip_ex : Py.strip ("  a b" ++ nl) = "a b".
Proof. reflexivity. Qed.
Example splitlines_ex :
  Py.splitlines (String "a" (String "013" (String "010" (String "010" "b"))))
  = ["a"; ""; "b"].
Proof. reflexivity. Qed.
Example splitlines_end_ex : Py.splitlines (String "a" (String "010" "")) = ["a"].
Proof. reflexivity. Qed.
Example last_n_ex : Py.last_n 2 [1; 2; 3] = [2; 3].
Proof. reflexivity. Qed.
Example last_n_short_ex : Py.last_n 20 [1; 2; 3] = [1; 2; 3].
Proof. reflexivity. Qed.
Example path_join_ex :
  Py.path_join "/repo" ["buck-out/gen/"; "a/b#*link-tree"]
  = "/repo/buck-out/gen/a/b#*link-tree".
Proof. reflexivity. Qed.
Example sorted_ex : Py.sorted ["//b:x"; "//a:y"; "//a:x"] = ["//a:x"; "//a:y"; "//b:x"].
Proof. vm_compute. reflexivity. Qed.

(** ** Facts on the string primitives *)

Section StringFacts.

Lemma append_cons c (s t : string) : String c s ++ t = String c (s ++ t).
Proof. reflexivity. Qed.

Lemma length_append (s t : string) :
  String.length (s ++ t) = String.length s + String.length t.
Proof. induction s as [|c s IH]; [reflexivity|]. rewrite append_cons. simpl. now rewrite IH. Qed.

Lemma prefix_append (p s : string) : String.prefix p (p ++ s) = true.
Proof.
  induction p as [|c p IH]; [now destruct s|].
  rewrite append_cons. simpl. destruct (ascii_dec c c); [exact IH|congruence].
Qed.

Lemma prefix_of_longer (p q t : string) :
  String.prefix (p ++ q) t = true -> String.prefix p t = true.
Proof.
  revert t. induction p as [|c p IH]; intros t H; [now destruct t|].
  rewrite append_cons in H. destruct t as [|d t]; simpl in *; [discriminate|].
  destruct (ascii_dec c d); [now apply IH|discriminate].
Qed.

Lemma substring_whole (s : string) : substring 0 (String.length s) s = s.
Proof. induction s as [|c s IH]; simpl; [reflexivity|now rewrite IH]. Qed.

Lemma substring_head (p s : string) :
  substring 0 (String.length p) (p ++ s) = p.
Proof.
  induction p as [|c p IH]; [now destruct s|].
  rewrite append_cons. simpl. now rewrite IH.
Qed.

Lemma substring_tail (p s : string) :
  substring (String.length p) (String.length s) (p ++ s) = s.
Proof.
  induction p as [|c p IH]; [apply substring_whole|].
  rewrite append_cons. simpl. exact IH.
Qed.

Lemma endswith_append (p suffix : string) : Py.endswith (p ++ suffix) suffix = true.
Proof.
  unfold Py.endswith, Py.slice_from. rewrite length_append.
  apply andb_true_intro. split; [apply Nat.leb_le; lia|].
  replace (String.length p + String.length suffix - String.length suffix)
    with (String.length p) by lia.
  replace (String.length p + String.length suffix - String.length p)
    with (String.length suffix) by lia.
  rewrite substring_tail. apply String.eqb_refl.
Qed.

Lemma slice_to_neg_append (p suffix : string) :
  Py.slice_to_neg (String.length suffix) (p ++ suffix) = p.
Proof.
  unfold Py.slice_to_neg. rewrite length_append.
  replace (String.length p + String.length suffix - String.length suffix)
    with (String.length p) by lia.
  apply substring_head.
Qed.

End StringFacts.

(** ** Facts on target attribution *)

Section Attribution.

Lemma matches_wildcard (pkg target : string) :
  matches (pkg ++ "/...") target = Py.startswith target pkg.
Proof.
  unfold matches. rewrite endswith_append.
  pose proof (slice_to_neg_append pkg "/...") as H. simpl String.length in H.
  now rewrite H.
Qed.

Lemma matches_exact (original target : string) :
  Py.endswith original "/..." = false ->
  matches original target = String.eqb target original.
Proof. unfold matches. now intros ->. Qed.

Lemma scan_original_matches (target original : string) (name : option string) :
  scan_original target name original
  = if matches original target then Some original else name.
Proof. unfold scan_original, matches. now destruct (Py.endswith original "/..."). Qed.

(** Scanning patterns that either fail or repeat the current name leaves
    the name as it is. *)
Lemma scan_keeps (target p : string) (l : list string) :
  (forall q, In q l -> matches q target = true -> q = p) ->
  fold_left (scan_original target) l (Some p) = Some p.
Proof.
  induction l as [|q l IH]; intros H; [reflexivity|].
  simpl. rewrite scan_original_matches.
  destruct (matches q target) eqn:Hq.
  - rewrite (H q (or_introl eq_refl) Hq). apply IH. intros; apply H; [now right|assumption].
  - apply IH. intros; apply H; [now right|assumption].
Qed.

Lemma scan_last_match (target p : string) (before after : list string)
    (name : option string) :
  matches p target = true ->
  (forall q, In q after -> matches q target = true -> q = p) ->
  fold_left (scan_original target) (before ++ p :: after) name = Some p.
Proof.
  intros Hp Hafter. rewrite fold_left_app. simpl.
  rewrite scan_original_matches, Hp. now apply scan_keeps.
Qed.

Lemma scan_result (target : string) (l : list string) (name : option string) (p : string) :
  fold_left (scan_original target) l name = Some p ->
  name = Some p \/ (In p l /\ matches p target = true).
Proof.
  revert name. induction l as [|q l IH]; intros name H; [now left|].
  simpl in H. apply IH in H. destruct H as [H|[H1 H2]].
  - rewrite scan_original_matches in H.
    destruct (matches q target) eqn:Hq.
    + injection H as ->. right. split; [now left|assumption].
    + now left.
  - right. split; [now right|assumption].
Qed.

Lemma scan_originals_Some (target p : string) (l : list string) :
  scan_originals target l = Some p -> In p l /\ matches p target = true.
Proof.
  intros H. apply scan_result in H. destruct H as [H|H]; [discriminate|assumption].
Qed.

Lemma scan_stays_Some (target : string) (l : list string) (name : option string) :
  name <> None -> fold_left (scan_original target) l name <> None.
Proof.
  revert name. induction l as [|x l IH]; intros name Hn; [assumption|].
  simpl. apply IH. rewrite scan_original_matches.
  destruct (matches x target); [discriminate|assumption].
Qed.

Lemma scan_no_match (target : string) (l : list string) (name : option string) :
  (forall q, In q l -> matches q target = false) ->
  fold_left (scan_original target) l name = name.
Proof.
  induction l as [|q l IH]; intros H; [reflexivity|].
  simpl. rewrite scan_original_matches, (H q (or_introl eq_refl)).
  apply IH. intros; apply H; now right.
Qed.

Lemma scan_originals_None (target : string) (l : list string) :
  scan_originals target l = None <->
  (forall q, In q l -> matches q target = false).
Proof.
  unfold scan_originals. split.
  - intros H q Hq. destruct (matches q target) eqn:Hm; [|reflexivity].
    apply in_split in Hq. destruct Hq as (l1 & l2 & ->).
    rewrite fold_left_app in H. simpl in H.
    rewrite scan_original_matches, Hm in H.
    now apply scan_stays_Some in H.
  - intros H. now apply scan_no_match.
Qed.

(** The loop ends with a pattern after which no pattern matches. *)
Lemma scan_originals_Some_last (target p : string) (l : list string) :
  scan_originals target l = Some p ->
  exists before after,
    l = (before ++ p :: after)%list
    /\ matches p target = true
    /\ forall q, In q after -> matches q target = false.
Proof.
  unfold scan_originals. induction l as [|x l IH] using rev_ind; [discriminate|].
  rewrite fold_left_app. simpl. rewrite scan_original_matches.
  destruct (matches x target) eqn:Hx.
  - intros H. injection H as ->. exists l, []. split; [reflexivity|].
    split; [assumption|]. intros q [].
  - intros H. destruct (IH H) as (before & after & -> & Hp & Hafter).
    exists before, (after ++ [x])%list. split; [now rewrite <- app_assoc|].
    split; [assumption|]. intros q Hq. apply in_app_or in Hq.
    destruct Hq as [Hq|[<-|[]]]; [now apply Hafter|assumption].
Qed.

(** The last matching pattern is the one the loop ends with. *)
Lemma scan_originals_last_match (target p : string) (before after : list string) :
  matches p target = true ->
  (forall q, In q after -> matches q target = false) ->
  scan_originals target (before ++ p :: after) = Some p.
Proof.
  intros Hp Hafter. apply scan_last_match; [assumption|].
  intros q Hq Hm. rewrite (Hafter q Hq) in Hm. discriminate.
Qed.

Lemma mapped_targets_elem (name : string) (unbuilt original_targets : list string) :
  name ∈ mapped_targets unbuilt original_targets <->
  exists target, In target unbuilt /\ name = mapped_name target original_targets.
Proof.
  unfold mapped_targets.
  assert (Hgen : forall l (acc : gset string),
    name ∈ fold_left
      (fun acc target => acc ∪ {[ mapped_name target original_targets ]}) l acc <->
    name ∈ acc \/ exists target, In target l /\ name = mapped_name target original_targets).
  { induction l as [|t l IH]; intros acc; simpl.
    - split; [now left|]. intros [H|(t & [] & _)]. exact H.
    - rewrite IH, elem_of_union, elem_of_singleton. split.
      + intros [[H|H]|(t' & H1 & H2)].
        * now left.
        * right. exists t. split; [now left|assumption].
        * right. exists t'. split; [now right|assumption].
      + intros [H|(t' & [<-|H1] & H2)].
        * left. now left.
        * left. now right.
        * right. exists t'. now split. }
  rewrite Hgen. split.
  - intros [H|H]; [|assumption]. now apply not_elem_of_empty in H.
  - intros H. now right.
Qed.

Lemma In_map_normalized (name : string) (unbuilt original_targets : list string) :
  In name (_map_normalized_targets_to_original unbuilt original_targets) <->
  exists target, In target unbuilt /\ name = mapped_name target original_targets.
Proof.
  unfold _map_normalized_targets_to_original.
  rewrite <- list_elem_of_In, elem_of_elements. apply mapped_targets_elem.
Qed.

End Attribution.

(** ** Target attribution: the claims *)

(** C7. When several original patterns match a not-found target, the name
    displayed for it is the last matching pattern in the input order,
    whatever kind the earlier matches were: if [p] matches and no pattern
    after [p] does, the inner loop ends with [p], [p] is the mapped name,
    and [p] is in the result whenever the target is among the unbuilt
    ones. *)
Theorem last_matching_pattern_wins (target p : string)
    (before after unbuilt : list string) :
  matches p target = true ->
  (forall q, In q after -> matches q target = false) ->
  scan_originals target (before ++ p :: after) = Some p
  /\ mapped_name target (before ++ p :: after) = p
  /\ (In target unbuilt ->
      In p (_map_normalized_targets_to_original unbuilt (before ++ p :: after))).
Proof.
  intros Hp Hafter.
  assert (Hscan : scan_originals target (before ++ p :: after) = Some p)
    by now apply scan_originals_last_match.
  assert (Hname : mapped_name target (before ++ p :: after) = p).
  { unfold mapped_name. now rewrite Hscan. }
  repeat split; [assumption..|].
  intros Hin. apply In_map_normalized. exists target. now split.
Qed.

Lemma last_matching_pattern_wins_witness :
  scan_originals "//a/b:c" (["//a/b:c"; "//a/..."] ++ "//a/b/..." :: ["//z:q"])
  = Some "//a/b/..."
  /\ mapped_name "//a/b:c" (["//a/b:c"; "//a/..."] ++ "//a/b/..." :: ["//z:q"])
     = "//a/b/..."
  /\ (In "//a/b:c" ["//a/b:c"] ->
      In "//a/b/..."
        (_map_normalized_targets_to_original ["//a/b:c"]
           (["//a/b:c"; "//a/..."] ++ "//a/b/..." :: ["//z:q"]))).
Proof.
  apply (last_matching_pattern_wins "//a/b:c" "//a/b/..."
           ["//a/b:c"; "//a/..."] ["//z:q"] ["//a/b:c"]).
  - reflexivity.
  - intros q [<-|[]]. reflexivity.
Defined.

(** C1, as stated, fails: the pattern [//pkg/...] matches the target
    [//pkgX/lib:t], and is its displayed name, although the target does not
    start with [//pkg/]. *)
Lemma wildcard_matches_without_slash_boundary :
  ~ (matches "//pkg/..." "//pkgX/lib:t" = true
     <-> Py.startswith "//pkgX/lib:t" "//pkg/" = true)
  /\ ~ (mapped_name "//pkgX/lib:t" ["//pkg/..."] = "//pkg/..."
        <-> Py.startswith "//pkgX/lib:t" "//pkg/" = true).
Proof.
  split; intros [H _]; specialize (H eq_refl); discriminate H.
Qed.

(** C1 (amended). For a wildcard pattern [pkg/...] the loop strips the four
    characters [/...] and tests the rest as a prefix, with no slash
    boundary.  The pattern matches a target exactly when the target starts
    with [pkg]; as the last original pattern it is the displayed name
    exactly when the target starts with [pkg], and among several patterns
    it is the displayed name when it matches and no later pattern does.  So
    the targets that start with [pkg/] or [pkg:] match, and so does every
    other target that starts with [pkg], such as one that starts with
    [pkgX/]. *)
Theorem wildcard_prefix_attribution (pkg target : string)
    (before after : list string) :
  (matches (pkg ++ "/...") target = true <-> Py.startswith target pkg = true)
  /\ (mapped_name target (before ++ [pkg ++ "/..."]) = pkg ++ "/..."
      <-> Py.startswith target pkg = true)
  /\ (Py.startswith target pkg = true ->
      (forall q, In q after -> matches q target = false) ->
      mapped_name target (before ++ (pkg ++ "/...") :: after) = pkg ++ "/...")
  /\ (Py.startswith target (pkg ++ "/") = true
      \/ Py.startswith target (pkg ++ ":") = true ->
      matches (pkg ++ "/...") target = true)
  /\ (forall rest, matches (pkg ++ "/...") (pkg ++ rest) = true).
Proof.
  assert (Hlast : forall l, Py.startswith target pkg = true ->
            (forall q, In q l -> matches q target = false) ->
            mapped_name target (before ++ (pkg ++ "/...") :: l) = pkg ++ "/...").
  { intros l Hstart Hl. unfold mapped_name.
    rewrite scan_originals_last_match; [reflexivity| |assumption].
    now rewrite matches_wildcard. }
  split; [now rewrite matches_wildcard|]. split; [|split; [|split]].
  - split.
    + unfold mapped_name.
      destruct (scan_originals target (before ++ [pkg ++ "/..."])) as [name|] eqn:Hs.
      * intros ->. apply scan_originals_Some in Hs.
        destruct Hs as [_ Hm]. now rewrite matches_wildcard in Hm.
      * intros ->. apply prefix_append.
    + intros Hstart. apply Hlast; [assumption|intros q []].
  - apply Hlast.
  - intros H. rewrite matches_wildcard. unfold Py.startswith in *.
    destruct H as [H|H]; exact (prefix_of_longer _ _ _ H).
  - intros rest. rewrite matches_wildcard. apply prefix_append.
Qed.

Lemma wildcard_prefix_attribution_witness :
  mapped_name "//pkg/sub:t" (["//other:x"] ++ ("//pkg" ++ "/...") :: ["//z:q"])
  = "//pkg" ++ "/..."
  /\ matches ("//pkg" ++ "/...") "//pkg:t" = true
  /\ matches ("//pkg" ++ "/...") ("//pkg" ++ "X/lib:t") = true
  /\ mapped_name "//pkgX/lib:t" (["//other:x"] ++ ["//pkg" ++ "/..."])
     = "//pkg" ++ "/...".
Proof.
  pose proof (wildcard_prefix_attribution "//pkg" "//pkg/sub:t" ["//other:x"] ["//z:q"])
    as (_ & _ & H3 & _).
  pose proof (wildcard_prefix_attribution "//pkg" "//pkg:t" [] []) as (_ & _ & _ & H4 & _).
  pose proof (wildcard_prefix_attribution "//pkg" "//pkgX/lib:t" ["//other:x"] [])
    as (_ & H2 & _ & _ & H5).
  split; [|split; [|split]].
  - apply H3; [reflexivity|]. intros q [<-|[]]. reflexivity.
  - apply H4. right. reflexivity.
  - apply H5.
  - apply (proj2 H2). reflexivity.
Defined.

(** C4, as stated, fails: the target [//a:b] equals the non-wildcard
    original pattern [//a:b], yet the later pattern [//a/...] is the one
    named, and [//a:b] is not in the result. *)
Lemma exact_pattern_overridden_by_later_wildcard :
  In "//a:b" ["//a:b"; "//a/..."]
  /\ Py.endswith "//a:b" "/..." = false
  /\ _map_normalized_targets_to_original ["//a:b"] ["//a:b"; "//a/..."]
     = ["//a/..."]
  /\ ~ In "//a:b"
       (_map_normalized_targets_to_original ["//a:b"] ["//a:b"; "//a/..."]).
Proof.
  assert (H : _map_normalized_targets_to_original ["//a:b"] ["//a:b"; "//a/..."]
              = ["//a/..."]) by (vm_compute; reflexivity).
  split; [now left|]. split; [reflexivity|]. split; [exact H|].
  rewrite H. intros [Heq|[]]. discriminate Heq.
Qed.

(** C4 (amended). For a not-found target equal to a non-wildcard original
    pattern the fallback is never taken: the loop ends with the last
    original pattern that matches the target.  That is the pattern itself
    when no wildcard pattern placed after it matches the target.  When the
    last matching pattern of the input is a wildcard pattern, which then
    comes after every occurrence of the exact pattern, that wildcard
    pattern is named and the exact pattern is not. *)
Theorem exact_pattern_is_named (target : string) (original_targets : list string) :
  In target original_targets ->
  Py.endswith target "/..." = false ->
  (exists p before after,
     original_targets = (before ++ p :: after)%list
     /\ (forall q, In q after -> matches q target = false)
     /\ matches p target = true
     /\ scan_originals target original_targets = Some p
     /\ mapped_name target original_targets = p
     /\ (p = target \/ (Py.endswith p "/..." = true /\ In target before)))
  /\ (forall before after,
        original_targets = (before ++ target :: after)%list ->
        (forall q, In q after -> Py.endswith q "/..." = true ->
                   matches q target = false) ->
        mapped_name target original_targets = target)
  /\ (forall before wildcard after,
        original_targets = (before ++ wildcard :: after)%list ->
        Py.endswith wildcard "/..." = true ->
        matches wildcard target = true ->
        (forall q, In q after -> matches q target = false) ->
        mapped_name target original_targets = wildcard
        /\ wildcard <> target
        /\ In target before).
Proof.
  intros Hin Hexact.
  assert (Hself : matches target target = true).
  { rewrite matches_exact by assumption. apply String.eqb_refl. }
  assert (Hbefore : forall before p after,
            original_targets = (before ++ p :: after)%list ->
            Py.endswith p "/..." = true ->
            (forall q, In q after -> matches q target = false) ->
            In target before).
  { intros before p after Heq Hw Hafter. rewrite Heq in Hin.
    apply in_app_or in Hin. destruct Hin as [H|[H|H]]; [assumption| |].
    - subst p. rewrite Hexact in Hw. discriminate.
    - rewrite (Hafter target H) in Hself. discriminate. }
  split; [|split].
  - destruct (scan_originals target original_targets) as [p|] eqn:Hs.
    + destruct (scan_originals_Some_last _ _ _ Hs) as (before & after & Heq & Hm & Hafter).
      exists p, before, after. unfold mapped_name. rewrite Hs.
      repeat (split; [assumption || reflexivity|]).
      destruct (Py.endswith p "/...") eqn:Hw.
      * right. split; [reflexivity|]. exact (Hbefore before p after Heq Hw Hafter).
      * left. rewrite matches_exact in Hm by assumption.
        symmetry. now apply String.eqb_eq.
    + pose proof (proj1 (scan_originals_None _ _) Hs target Hin) as Hn.
      rewrite Hself in Hn. discriminate.
  - intros before after -> Hafter. unfold mapped_name, scan_originals.
    rewrite scan_last_match with (p := target); [reflexivity|assumption|].
    intros q Hq Hm. destruct (Py.endswith q "/...") eqn:Hw.
    + rewrite (Hafter q Hq Hw) in Hm. discriminate.
    + rewrite matches_exact in Hm by assumption.
      symmetry. now apply String.eqb_eq.
  - intros before wildcard after Heq Hw Hm Hafter. split; [|split].
    + rewrite Heq. unfold mapped_name.
      now rewrite scan_originals_last_match.
    + intros ->. rewrite Hexact in Hw. discriminate.
    + exact (Hbefore before wildcard after Heq Hw Hafter).
Qed.

Lemma exact_pattern_is_named_witness :
  mapped_name "//a:b" ["//a/..."; "//a:b"; "//c/..."] = "//a:b"
  /\ (mapped_name "//a:b" ["//a:b"; "//a/..."; "//c:d"] = "//a/..."
      /\ "//a/..." <> "//a:b"
      /\ In "//a:b" ["//a:b"])
  /\ mapped_name "//a:b" ["//a:b"; "//a/..."; "//a:b"] = "//a:b".
Proof.
  destruct (exact_pattern_is_named "//a:b" ["//a/..."; "//a:b"; "//c/..."])
    as (_ & H1 & _); [right; now left|reflexivity|].
  destruct (exact_pattern_is_named "//a:b" ["//a:b"; "//a/..."; "//c:d"])
    as (_ & _ & H2); [now left|reflexivity|].
  destruct (exact_pattern_is_named "//a:b" ["//a:b"; "//a/..."; "//a:b"])
    as (_ & H3 & _); [now left|reflexivity|].
  split; [|split].
  - apply (H1 ["//a/..."] ["//c/..."]); [reflexivity|].
    intros q [<-|[]] _. reflexivity.
  - apply (H2 ["//a:b"] "//a/..." ["//c:d"]); [reflexivity..|].
    intros q [<-|[]]. reflexivity.
  - apply (H3 ["//a:b"; "//a/..."] []); [reflexivity|]. intros q [].
Defined.

(** ** Facts on the locator pass *)

Section LocatorFacts.
Context {World : Type} (E : externals World).

Lemma add_events_nil (s : state World) : add_events s [] = s.
Proof. destruct s. unfold add_events. simpl. now rewrite app_nil_r. Qed.

Lemma add_events_app (s : state World) (evs1 evs2 : list event) :
  add_events (add_events s evs1) evs2 = add_events s (evs1 ++ evs2).
Proof. unfold add_events. simpl. now rewrite app_assoc. Qed.

Lemma call_glob_eq (pattern : string) (s : state World) :
  call_glob E pattern s
  = (Value (glob_glob E pattern (world s)), add_events s [Ev_glob pattern]).
Proof. reflexivity. Qed.

Lemma scan_targets_eq (buck_root : string) (targets : list string)
    (acc : BuckOut) (s : state World) :
  scan_targets E buck_root targets acc s
  = (Value
       {| source_directories :=
            source_directories acc
            ++ located_directories E buck_root (world s) targets;
          targets_not_found :=
            targets_not_found acc
            ++ located_not_found E buck_root (world s) targets |},
     add_events s (glob_events buck_root targets)).
Proof.
  revert acc s. induction targets as [|target rest IH]; intros acc s.
  - simpl. rewrite !app_nil_r, add_events_nil. now destruct acc.
  - simpl scan_targets. unfold bind. rewrite call_glob_eq. rewrite IH.
    rewrite add_events_app. simpl.
    unfold discovered at 2.
    destruct (length (glob_glob E (glob_pattern buck_root target) (world s)) =? 0)%nat;
      simpl; unfold discovered; now rewrite <- !app_assoc.
Qed.

(** The whole pass in closed form. *)
Lemma find_built_eq (targets : list string) (s : state World) :
  _find_built_source_directories E targets s
  = let cwd := os_getcwd E (world s) in
    match find_root E cwd ".buckconfig" (world s) with
    | None =>
        (Raised (Exception "No .buckconfig found in ancestors of the current directory."),
         add_events s [Ev_find_root cwd ".buckconfig"])
    | Some buck_root =>
        (Value (located E buck_root (world s) (Py.sorted targets)),
         add_events s (Ev_find_root cwd ".buckconfig"
                       :: glob_events buck_root (Py.sorted targets)))
    end.
Proof.
  unfold _find_built_source_directories, bind, call_find_root, bind, emit, ret.
  simpl.
  destruct (find_root E (os_getcwd E (world s)) ".buckconfig" (world s)) as [r|];
    [|reflexivity].
  rewrite scan_targets_eq. simpl. unfold located, add_events. simpl.
  now rewrite <- app_assoc.
Qed.

Lemma sorted_Permutation (l1 l2 : list string) :
  Permutation l1 l2 -> Py.sorted l1 = Py.sorted l2.
Proof.
  intros H. unfold Py.sorted.
  apply (Sorted_unique String.le); try apply Sorted_merge_sort; try apply _.
  now rewrite !merge_sort_Permutation.
Qed.

Lemma sorted_elem (x : string) (l : list string) : In x (Py.sorted l) <-> In x l.
Proof.
  unfold Py.sorted. rewrite <- !list_elem_of_In.
  now rewrite (merge_sort_Permutation String.le l).
Qed.

Lemma located_directories_In (buck_root : string) (w : World)
    (targets : list string) (tree : string) :
  In tree (located_directories E buck_root w targets) <->
  exists target, In target targets
                 /\ In tree (discovered E buck_root target w)
                 /\ Py.endswith_any tree excluded_suffixes = false.
Proof.
  unfold located_directories. rewrite in_flat_map. split.
  - intros (t & Ht & Hf). apply filter_In in Hf. destruct Hf as [Hd Hk].
    exists t. repeat split; try assumption.
    unfold keep_tree in Hk. now apply negb_true_iff in Hk.
  - intros (t & Ht & Hd & Hk). exists t. split; [assumption|].
    apply filter_In. split; [assumption|]. unfold keep_tree. now rewrite Hk.
Qed.

Lemma located_not_found_In (buck_root : string) (w : World)
    (targets : list string) (target : string) :
  In target (located_not_found E buck_root w targets) <->
  In target targets /\ discovered E buck_root target w = [].
Proof.
  unfold located_not_found. rewrite filter_In. split; intros [H1 H2]; split; try assumption.
  - apply Nat.eqb_eq in H2. now destruct (discovered E buck_root target w).
  - now rewrite H2.
Qed.

End LocatorFacts.

(** ** The output locator: the claims *)

Section LocatorClaims.
Context {World : Type} (E : externals World).

(** C10. The locator sorts its targets before it scans: on input sequences
    that are permutations of each other, in the same state, it returns the
    same result (the same directory list and the same not-found list, or
    the same exception) and leaves the same state; and the result is the
    scan of the sorted targets, in sorted order. *)
Theorem locator_input_order_irrelevant (targets1 targets2 : list string)
    (s : state World) :
  Permutation targets1 targets2 ->
  _find_built_source_directories E targets1 s
  = _find_built_source_directories E targets2 s
  /\ Sorted String.le (Py.sorted targets1)
  /\ (forall buck_root,
        find_root E (os_getcwd E (world s)) ".buckconfig" (world s)
        = Some buck_root ->
        fst (_find_built_source_directories E targets1 s)
        = Value (located E buck_root (world s) (Py.sorted targets1))).
Proof.
  intros Hperm. split; [|split].
  - rewrite !find_built_eq. now rewrite (sorted_Permutation _ _ Hperm).
  - apply Sorted_merge_sort. apply _.
  - intros buck_root Hroot. rewrite find_built_eq. simpl. now rewrite Hroot.
Qed.

(** C2 (amended). With a build root, the locator returns; a directory is
    in the returned list exactly when the glob finds it for one of the
    targets and it carries none of the three excluded suffixes; and a
    target is recorded as not found exactly when the glob finds no
    directory at all for it. *)
Theorem locator_excludes_variants (targets : list string) (s : state World)
    (buck_root : string) :
  find_root E (os_getcwd E (world s)) ".buckconfig" (world s) = Some buck_root ->
  exists buck_out s',
    _find_built_source_directories E targets s = (Value buck_out, s')
    /\ world s' = world s
    /\ (forall tree,
          In tree (source_directories buck_out) <->
          exists target, In target targets
                         /\ In tree (discovered E buck_root target (world s))
                         /\ Py.endswith_any tree excluded_suffixes = false)
    /\ (forall tree,
          In tree (source_directories buck_out) ->
          Py.endswith tree "-vs_debugger#link-tree" = false
          /\ Py.endswith tree "-interp#link-tree" = false
          /\ Py.endswith tree "-ipython#link-tree" = false)
    /\ (forall target,
          In target (targets_not_found buck_out) <->
          In target targets /\ discovered E buck_root target (world s) = []).
Proof.
  intros Hroot. rewrite find_built_eq. simpl. rewrite Hroot.
  eexists _, _. split; [reflexivity|]. split; [reflexivity|].
  assert (Hdirs : forall tree,
    In tree (located_directories E buck_root (world s) (Py.sorted targets)) <->
    exists target, In target targets
                   /\ In tree (discovered E buck_root target (world s))
                   /\ Py.endswith_any tree excluded_suffixes = false).
  { intros tree. rewrite located_directories_In.
    split; intros (t & Ht & H); exists t; (split; [|exact H]);
      now apply sorted_elem. }
  split; [exact Hdirs|]. split.
  - intros tree Htree. apply Hdirs in Htree. destruct Htree as (_ & _ & _ & Hk).
    unfold Py.endswith_any, excluded_suffixes in Hk. simpl in Hk.
    repeat (apply orb_false_elim in Hk; destruct Hk as [? Hk]). auto.
  - intros target. simpl. rewrite located_not_found_In.
    now rewrite sorted_elem.
Qed.

End LocatorClaims.

Lemma locator_input_order_irrelevant_witness :
  _find_built_source_directories (scripted built_script)
    ["//lib:a"; "//app:bin"] initial
  = _find_built_source_directories (scripted built_script)
      ["//app:bin"; "//lib:a"] initial.
Proof.
  apply (locator_input_order_irrelevant (scripted built_script)
           ["//lib:a"; "//app:bin"] ["//app:bin"; "//lib:a"] initial).
  apply perm_swap.
Defined.

Lemma locator_excludes_variants_witness :
  exists buck_out,
    fst (_find_built_source_directories (scripted built_script) ["//app:bin"] initial)
    = Value buck_out
    /\ (forall tree,
          In tree (source_directories buck_out) ->
          Py.endswith tree "-interp#link-tree" = false)
    /\ (In "//app:bin" (targets_not_found buck_out) <->
        In "//app:bin" ["//app:bin"]
        /\ discovered (scripted built_script) "/repo" "//app:bin" 0 = []).
Proof.
  destruct (locator_excludes_variants (scripted built_script) ["//app:bin"]
              initial "/repo" eq_refl)
    as (buck_out & s' & Hrun & _ & _ & Hexcl & Hnf).
  exists buck_out. split; [now rewrite Hrun|]. split.
  - intros tree Htree. now destruct (Hexcl tree Htree) as (_ & H & _).
  - apply Hnf.
Defined.

(** C2, as stated, fails in its second half: the only directory found for
    [//app:bin] ends in [-interp#link-tree]; it is left out of the result,
    but the target is not recorded as not found. *)
Lemma excluded_only_target_is_not_recorded :
  discovered (scripted interp_only_script) "/repo" "//app:bin" 0
  = ["/repo/buck-out/gen/app/bin#link-tree-interp#link-tree"]
  /\ forallb (fun tree => Py.endswith_any tree excluded_suffixes)
       (discovered (scripted interp_only_script) "/repo" "//app:bin" 0) = true
  /\ fst (_find_built_source_directories (scripted interp_only_script)
            ["//app:bin"] initial)
     = Value {| source_directories := []; targets_not_found := [] |}
  /\ forall buck_out,
       fst (_find_built_source_directories (scripted interp_only_script)
              ["//app:bin"] initial) = Value buck_out ->
       ~ In "//app:bin" (targets_not_found buck_out).
Proof.
  split; [reflexivity|]. split; [reflexivity|]. split; [reflexivity|].
  intros buck_out H. vm_compute in H. injection H as <-. intros [].
Qed.

(** ** Facts on the builder and the normalizer *)

Section BuilderFacts.
Context {World : Type} (E : externals World).

Lemma last_n_length {A} (k : nat) (l : list A) :
  length (Py.last_n k l) = Nat.min k (length l).
Proof. unfold Py.last_n. rewrite length_drop. lia. Qed.

Lemma last_n_suffix {A} (k : nat) (l : list A) :
  l = (take (length l - k) l ++ Py.last_n k l)%list.
Proof. unfold Py.last_n. now rewrite take_drop. Qed.

(** The builder in closed form. *)
Lemma build_targets_eq (targets original_targets : list string) (s : state World) :
  _build_targets E targets original_targets s
  = let info :=
      "Building target"
      ++ (if (1 <? length original_targets)%nat then "s:" else "")
      ++ " `" ++ Py.join "`, `" original_targets ++ "`" in
    let s1 := add_events (add_log s [(INFO, info)])
                [Ev_check_output (build_command targets) None] in
    match check_output E (build_command targets) (world s) with
    | (Returned _, w) =>
        (Value tt, add_log (set_world s1 w) [(WARNING, "Finished building targets.")])
    | (CalledProcessError _ stderr, w) =>
        (Raised (BuckException
                   "Could not build targets. Check the paths or run `buck clean`."),
         add_log (set_world s1 w)
           [(ERROR, "Buck returned error: "
                    ++ Py.join nl (Py.last_n 20 (Py.splitlines stderr)))])
    end.
Proof.
  unfold _build_targets, bind, call_check_output, bind, emit, LOG, raise,
    build_command.
  simpl.
  destruct (check_output E ("buck" :: "build" :: targets) (world s)) as [[out|rc err] w];
    reflexivity.
Qed.

Lemma build_targets_trace (targets original_targets : list string)
    (s : state World) :
  trace (snd (_build_targets E targets original_targets s))
  = (trace s ++ [Ev_check_output (build_command targets) None])%list
  /\ world (snd (_build_targets E targets original_targets s))
     = snd (check_output E (build_command targets) (world s)).
Proof.
  rewrite build_targets_eq. simpl.
  destruct (check_output E (build_command targets) (world s)) as [[out|rc err] w];
    split; reflexivity.
Qed.

Lemma build_targets_Value (targets original_targets : list string)
    (s s' : state World) (u : unit) :
  _build_targets E targets original_targets s = (Value u, s') ->
  exists out, check_output E (build_command targets) (world s) = (Returned out, world s').
Proof.
  rewrite build_targets_eq. simpl.
  destruct (check_output E (build_command targets) (world s)) as [[out|rc err] w];
    intros H; [|discriminate].
  injection H as _ <-. now exists out.
Qed.

Lemma lstrip_all_space (s : string) : Py.all_space s = true -> Py.lstrip s = "".
Proof.
  induction s as [|c s IH]; [reflexivity|]. simpl.
  intros H. apply andb_prop in H. destruct H as [Hc Hs]. rewrite Hc. now apply IH.
Qed.

Lemma strip_all_space (s : string) : Py.all_space s = true -> Py.strip s = "".
Proof. intros H. unfold Py.strip. now rewrite lstrip_all_space. Qed.

Lemma normalize_trace (targets : list string) (s : state World) :
  trace (snd (_normalize E targets s))
  = (trace s ++ [Ev_check_output (query_command targets) (Some 600)])%list.
Proof.
  unfold _normalize, bind, call_check_output_timeout, bind, emit, LOG, raise,
    query_command.
  simpl.
  destruct (check_output_timeout E _ 600 (world s)) as [[[out|rc err]|[err|]] w];
    simpl; try reflexivity.
  destruct (map _ _); reflexivity.
Qed.

(** A query that prints white space only normalizes to no target. *)
Lemma normalize_blank (targets : list string) (s : state World)
    (stdout : string) (w : World) :
  check_output_timeout E (query_command targets) 600 (world s)
  = (Finished (Returned stdout), w) ->
  Py.all_space stdout = true ->
  exists s', _normalize E targets s = (Value [], s')
             /\ world s' = w
             /\ last (log s')
                = Some (WARNING,
                        "Provided targets do not contain any binary or unittest targets.").
Proof.
  intros Hq Hblank.
  unfold _normalize, bind, call_check_output_timeout, bind, emit, LOG, raise.
  unfold query_command in Hq. simpl in *. rewrite Hq. simpl.
  rewrite (strip_all_space _ Hblank). simpl.
  eexists. split; [reflexivity|]. split; [reflexivity|].
  simpl. now rewrite last_snoc.
Qed.

End BuilderFacts.

(** ** The builder: the claim *)

(** C3, as stated, fails: the build exits non-zero with the diagnostic
    [undefined symbol]; the exception raised carries a fixed message, in
    which the diagnostic does not occur. *)
Lemma build_failure_message_omits_diagnostic :
  check_output (scripted failing_build_script) (build_command ["//app:bin"]) 0
  = (CalledProcessError 1 "undefined symbol", 1)
  /\ fst (_build_targets (scripted failing_build_script)
            ["//app:bin"] ["//app:bin"] initial)
     = Raised (BuckException
                 "Could not build targets. Check the paths or run `buck clean`.")
  /\ Py.find "Could not build targets. Check the paths or run `buck clean`."
       "undefined symbol" = (-1)%Z.
Proof. repeat split. Qed.

(** C3 (amended). When the build invocation exits non-zero the builder
    raises [BuckException] with the fixed message [Could not build targets.
    Check the paths or run `buck clean`.]; the last 20 lines of the captured
    standard error, and no more than 20, go to the error log, joined by
    newlines after [Buck returned error: ]. *)
Theorem build_failure_logs_last_20_lines {World : Type} (E : externals World)
    (targets original_targets : list string) (s : state World)
    (returncode : Z) (stderr : string) (w : World) :
  check_output E (build_command targets) (world s)
  = (CalledProcessError returncode stderr, w) ->
  let lines := Py.splitlines stderr in
  exists s',
    _build_targets E targets original_targets s
    = (Raised (BuckException
                 "Could not build targets. Check the paths or run `buck clean`."),
       s')
    /\ last (log s')
       = Some (ERROR, "Buck returned error: " ++ Py.join nl (Py.last_n 20 lines))
    /\ length (log s') = length (log s) + 2
    /\ length (Py.last_n 20 lines) = Nat.min 20 (length lines)
    /\ lines = (take (length lines - 20) lines ++ Py.last_n 20 lines)%list.
Proof.
  intros Hrun lines. rewrite build_targets_eq. cbv zeta. rewrite Hrun.
  eexists. split; [reflexivity|]. split; [|split; [|split]].
  - unfold add_log at 1. simpl log. now rewrite last_snoc.
  - unfold add_log, set_world, add_events. simpl log.
    rewrite !length_app. simpl. lia.
  - apply last_n_length.
  - apply last_n_suffix.
Qed.

Lemma build_failure_logs_last_20_lines_witness :
  exists s',
    _build_targets (scripted failing_build_script) ["//app:bin"] ["//app:bin"] initial
    = (Raised (BuckException
                 "Could not build targets. Check the paths or run `buck clean`."),
       s')
    /\ last (log s') = Some (ERROR, "Buck returned error: undefined symbol").
Proof.
  destruct (build_failure_logs_last_20_lines (scripted failing_build_script)
              ["//app:bin"] ["//app:bin"] initial 1 "undefined symbol" 1 eq_refl)
    as (s' & Hrun & Hlog & _).
  exists s'. split; [exact Hrun|exact Hlog].
Defined.

(** ** Facts on the orchestration *)

Section OrchestrationFacts.
Context {World : Type} (E : externals World).

Lemma prompts_app (l1 l2 : list event) :
  prompts (l1 ++ l2) = prompts l1 + prompts l2.
Proof. unfold prompts. now rewrite List.filter_app, length_app. Qed.

Lemma prompts_glob_events (buck_root : string) (targets : list string) :
  prompts (glob_events buck_root targets) = 0.
Proof. induction targets as [|t l IH]; [reflexivity|exact IH]. Qed.

Lemma unprompted_refl (s : state World) : unprompted s s.
Proof. exists []. split; [now rewrite app_nil_r|reflexivity]. Qed.

Lemma unprompted_trans (s1 s2 s3 : state World) :
  unprompted s1 s2 -> unprompted s2 s3 -> unprompted s1 s3.
Proof.
  intros (e1 & H1 & P1) (e2 & H2 & P2). exists (e1 ++ e2)%list. split.
  - now rewrite H2, H1, app_assoc.
  - rewrite prompts_app. lia.
Qed.

Lemma unprompted_prompts (s s' : state World) :
  unprompted s s' -> prompts (trace s') = prompts (trace s).
Proof. intros (evs & -> & P). rewrite prompts_app. lia. Qed.

Lemma normalize_unprompted (targets : list string) (s : state World) :
  unprompted s (snd (_normalize E targets s)).
Proof. eexists. split; [apply normalize_trace|reflexivity]. Qed.

Lemma build_unprompted (targets original_targets : list string) (s : state World) :
  unprompted s (snd (_build_targets E targets original_targets s)).
Proof. eexists. split; [apply build_targets_trace|reflexivity]. Qed.

Lemma find_built_unprompted (targets : list string) (s : state World) :
  unprompted s (snd (_find_built_source_directories E targets s)).
Proof.
  rewrite find_built_eq. simpl.
  destruct (find_root E _ _ _); eexists; (split; [reflexivity|]).
  - apply prompts_glob_events.
  - reflexivity.
Qed.

Lemma finish_state (original_targets : list string) (buck_out : BuckOut)
    (directories : list string) (s : state World) :
  snd (finish E original_targets buck_out directories s) = s.
Proof. unfold finish. now destruct (nonempty _). Qed.

Lemma nonempty_true {A} (l : list A) : l <> [] -> nonempty l = true.
Proof. now destruct l. Qed.

Lemma nonempty_false {A} (l : list A) : nonempty l = false -> l = [].
Proof. now destruct l. Qed.

(** The final check raises on every non-empty not-found list. *)
Lemma finish_raises (original_targets : list string) (buck_out : BuckOut)
    (directories : list string) (s : state World) :
  targets_not_found buck_out <> [] ->
  finish E original_targets buck_out directories s
  = (Raised (BuckException
               (unresolved_message E
                  (_map_normalized_targets_to_original
                     (targets_not_found buck_out) original_targets))),
     s).
Proof. intros H. unfold finish. now rewrite (nonempty_true _ H). Qed.

Lemma finish_Value (original_targets : list string) (buck_out : BuckOut)
    (directories dirs : list string) (s s' : state World) :
  finish E original_targets buck_out directories s = (Value dirs, s') ->
  targets_not_found buck_out = [] /\ dirs = directories /\ s' = s.
Proof.
  unfold finish. destruct (nonempty _) eqn:Hn; [discriminate|].
  intros H. injection H as <- <-. split; [now apply nonempty_false|now split].
Qed.

(** What the retry leaves in [buck_out] and [source_directories]: the
    result of a locator pass that ended in the current state, or a
    non-empty not-found list. *)
Lemma retry_Value (targets original_targets : list string) (build prompt : bool)
    (buck_out buck_out' : BuckOut) (dirs' : list string) (s0 s s' : state World) :
  _find_built_source_directories E targets s0 = (Value buck_out, s) ->
  retry E targets original_targets build prompt buck_out
    (source_directories buck_out) s = (Value (buck_out', dirs'), s') ->
  dirs' = source_directories buck_out'
  /\ (targets_not_found buck_out' <> []
      \/ exists s1, _find_built_source_directories E targets s1
                    = (Value buck_out', s')).
Proof.
  intros Hfirst. unfold retry.
  destruct (nonempty (targets_not_found buck_out)) eqn:Hn.
  - unfold bind.
    destruct ((if negb build && negb prompt then ret true
               else call_get_yes_no_input E "Build target?") s)
      as [[e|go] s1] eqn:Hgo; [discriminate|].
    destruct go.
    + destruct (_build_targets E targets original_targets s1) as [[e|u] s2];
        [discriminate|].
      destruct (_find_built_source_directories E targets s2)
        as [[e|bo] s3] eqn:Hsecond; [discriminate|].
      unfold ret. intros H. injection H as <- <- <-.
      split; [reflexivity|]. right. now exists s2.
    + unfold ret. intros H. injection H as <- <- <-.
      split; [reflexivity|]. left. intros Hnil. now rewrite Hnil in Hn.
  - unfold ret. intros H. injection H as <- <- <-.
    split; [reflexivity|]. right. now exists s0.
Qed.

End OrchestrationFacts.

(** ** The orchestration: the claims *)

Section OrchestrationClaims.
Context {World : Type} (E : externals World).

(** The forced branch of the retry: build, locate again, check. *)
Lemma rebuild_unprompted (targets original_targets : list string)
    (s : state World) :
  unprompted s
    (snd ((_build_targets E targets original_targets ;;;
           buck_out <- _find_built_source_directories E targets ;;
           finish E original_targets buck_out (source_directories buck_out)) s)).
Proof.
  unfold bind.
  pose proof (build_unprompted E targets original_targets s) as Hb.
  destruct (_build_targets E targets original_targets s) as [[e|u] s3];
    simpl in *; [assumption|].
  pose proof (find_built_unprompted E targets s3) as Hf.
  destruct (_find_built_source_directories E targets s3) as [[e|bo] s4];
    simpl in *; [eapply unprompted_trans; eassumption|].
  rewrite finish_state. eapply unprompted_trans; eassumption.
Qed.

(** C5. When the first locator pass reports a target not found, the build
    flag is false and prompting is disallowed, the run continues with the
    rebuild of the normalized targets, then the second locator pass, then
    the final check; the prompt collaborator is not called anywhere in
    the run; the build command is the next call made, and the second pass
    starts as soon as that command exits zero. *)
Theorem forced_rebuild_without_prompt (original_targets targets : list string)
    (s s1 s2 : state World) (buck_out : BuckOut) :
  _normalize E original_targets s = (Value targets, s1) ->
  _find_built_source_directories E targets s1 = (Value buck_out, s2) ->
  targets_not_found buck_out <> [] ->
  let run := generate_source_directories E original_targets false false s in
  run = (_build_targets E targets original_targets ;;;
         buck_out <- _find_built_source_directories E targets ;;
         finish E original_targets buck_out (source_directories buck_out)) s2
  /\ prompts (trace (snd run)) = prompts (trace s)
  /\ exists later,
       trace (snd run)
       = (trace s2 ++ Ev_check_output (build_command targets) None :: later)%list
       /\ forall out w,
            check_output E (build_command targets) (world s2) = (Returned out, w) ->
            exists later',
              later = Ev_find_root (os_getcwd E w) ".buckconfig" :: later'.
Proof.
  intros Hnorm Hfirst Hmissing run.
  assert (Hrun : run
                 = (_build_targets E targets original_targets ;;;
                    buck_out <- _find_built_source_directories E targets ;;
                    finish E original_targets buck_out (source_directories buck_out))
                     s2).
  { unfold run, generate_source_directories, bind at 1. rewrite Hnorm.
    unfold bind at 1. unfold ret at 1. unfold bind at 1. rewrite Hfirst.
    unfold bind at 1, retry. rewrite (nonempty_true _ Hmissing). simpl negb.
    simpl andb. cbv iota. unfold bind at 2. unfold ret at 1. cbv iota beta.
    unfold bind.
    destruct (_build_targets E targets original_targets s2) as [[e|u] s3];
      [reflexivity|].
    destruct (_find_built_source_directories E targets s3) as [[e|bo] s4];
      reflexivity. }
  split; [exact Hrun|]. rewrite Hrun. split.
  - pose proof (normalize_unprompted E original_targets s) as H1.
    rewrite Hnorm in H1.
    pose proof (find_built_unprompted E targets s1) as H2.
    rewrite Hfirst in H2.
    pose proof (rebuild_unprompted targets original_targets s2) as H3.
    apply unprompted_prompts.
    exact (unprompted_trans _ _ _ H1 (unprompted_trans _ _ _ H2 H3)).
  - unfold bind. rewrite build_targets_eq. cbv zeta.
    destruct (check_output E (build_command targets) (world s2))
      as [[out|rc err] w] eqn:Hb.
    + rewrite find_built_eq. cbv zeta. simpl world.
      destruct (find_root E (os_getcwd E w) ".buckconfig" w) as [r|].
      * rewrite finish_state. simpl trace. eexists. split.
        -- rewrite <- app_assoc. reflexivity.
        -- intros out' w' Heq. injection Heq as _ <-. eexists. reflexivity.
      * simpl trace. eexists. split.
        -- rewrite <- app_assoc. reflexivity.
        -- intros out' w' Heq. injection Heq as _ <-. eexists. reflexivity.
    + simpl trace. exists []. split; [reflexivity|].
      intros out' w' Heq. discriminate Heq.
Qed.

(** C9. No partial success: a run either raises, or returns the directory
    list of its last locator pass, a pass over the normalized targets
    whose not-found list is empty and after which nothing more is done;
    and the final check raises the unresolved-targets exception on every
    non-empty not-found list. *)
Theorem no_partial_success (original_targets : list string)
    (build prompt : bool) (s : state World) :
  ((exists e s',
      generate_source_directories E original_targets build prompt s
      = (Raised e, s'))
   \/ (exists dirs targets s1 s',
         generate_source_directories E original_targets build prompt s
         = (Value dirs, s')
         /\ fst (_normalize E original_targets s) = Value targets
         /\ _find_built_source_directories E targets s1
            = (Value {| source_directories := dirs; targets_not_found := [] |},
               s')))
  /\ (forall buck_out directories s1,
        targets_not_found buck_out <> [] ->
        finish E original_targets buck_out directories s1
        = (Raised (BuckException
                     (unresolved_message E
                        (_map_normalized_targets_to_original
                           (targets_not_found buck_out) original_targets))),
           s1)).
Proof.
  split; [|intros; now apply finish_raises].
  destruct (generate_source_directories E original_targets build prompt s)
    as [[e|dirs] s'] eqn:Hrun; [left; now exists e, s'|right].
  unfold generate_source_directories, bind in Hrun.
  destruct (_normalize E original_targets s) as [[e|targets] s1] eqn:Hnorm;
    [discriminate|].
  destruct ((if build then _build_targets E targets original_targets else ret tt) s1)
    as [[e|u] s2]; [discriminate|].
  destruct (_find_built_source_directories E targets s2)
    as [[e|buck_out] s3] eqn:Hfirst; [discriminate|].
  destruct (retry E targets original_targets build prompt buck_out
              (source_directories buck_out) s3)
    as [[e|[buck_out' dirs']] s4] eqn:Hretry; [discriminate|].
  simpl in Hrun. apply finish_Value in Hrun. destruct Hrun as (Hnil & -> & ->).
  destruct (retry_Value E _ _ _ _ _ _ _ _ _ _ Hfirst Hretry) as [-> [Hne|[s5 Hlast]]];
    [contradiction|].
  exists (source_directories buck_out'), targets, s5, s4.
  split; [reflexivity|]. split; [reflexivity|].
  rewrite Hlast. destruct buck_out' as [d n]. simpl in *. now subst n.
Qed.

(** C8 (amended). When the query exits zero and prints white space only,
    normalization returns the empty sequence without raising.  The run
    then returns the empty directory list, without a prompt, provided the
    build root is found and, where the build flag is set, the build
    command (run without a target) exits zero. *)
Theorem blank_query_gives_no_targets (original_targets : list string)
    (prompt : bool) (s : state World) (stdout : string) (w : World) :
  check_output_timeout E (query_command original_targets) 600 (world s)
  = (Finished (Returned stdout), w) ->
  Py.all_space stdout = true ->
  (exists s1, _normalize E original_targets s = (Value [], s1) /\ world s1 = w)
  /\ (forall buck_root,
        find_root E (os_getcwd E w) ".buckconfig" w = Some buck_root ->
        let run := generate_source_directories E original_targets false prompt s in
        fst run = Value [] /\ prompts (trace (snd run)) = prompts (trace s))
  /\ (forall buck_root out w',
        check_output E (build_command []) w = (Returned out, w') ->
        find_root E (os_getcwd E w') ".buckconfig" w' = Some buck_root ->
        let run := generate_source_directories E original_targets true prompt s in
        fst run = Value [] /\ prompts (trace (snd run)) = prompts (trace s)).
Proof.
  intros Hq Hblank.
  destruct (normalize_blank E _ _ _ _ Hq Hblank) as (s1 & Hnorm & Hw & _).
  pose proof (normalize_unprompted E original_targets s) as Hu1.
  rewrite Hnorm in Hu1. simpl in Hu1.
  split; [now exists s1|]. subst w. split.
  - intros buck_root Hroot run.
    assert (Hrun : exists sf, run = (Value [], sf) /\ unprompted s1 sf).
    { pose proof (find_built_unprompted E [] s1) as Hu2.
      unfold run, generate_source_directories, bind. rewrite Hnorm. unfold ret at 1.
      destruct (_find_built_source_directories E [] s1) as [r sf] eqn:Hf.
      rewrite find_built_eq in Hf. cbv zeta in Hf. rewrite Hroot in Hf.
      change (Py.sorted []) with (@nil string) in Hf.
      injection Hf as <- <-. eexists. split; [reflexivity|exact Hu2]. }
    destruct Hrun as (sf & -> & Hu2). split; [reflexivity|].
    apply unprompted_prompts. exact (unprompted_trans _ _ _ Hu1 Hu2).
  - intros buck_root out w' Hb Hroot run.
    assert (Hrun : exists sf, run = (Value [], sf) /\ unprompted s1 sf).
    { pose proof (build_unprompted E [] original_targets s1) as Hu2.
      unfold run, generate_source_directories, bind. rewrite Hnorm.
      destruct (_build_targets E [] original_targets s1) as [rb sb] eqn:Hbuild.
      rewrite build_targets_eq in Hbuild. cbv zeta in Hbuild. rewrite Hb in Hbuild.
      injection Hbuild as <- <-.
      match type of Hu2 with unprompted _ (snd (_, ?sb)) =>
        pose proof (find_built_unprompted E [] sb) as Hu3;
        destruct (_find_built_source_directories E [] sb) as [r sf] eqn:Hf
      end.
      rewrite find_built_eq in Hf. cbv zeta in Hf. simpl world in Hf.
      rewrite Hroot in Hf. change (Py.sorted []) with (@nil string) in Hf.
      injection Hf as <- <-. eexists. split; [reflexivity|].
      exact (unprompted_trans _ _ _ Hu2 Hu3). }
    destruct Hrun as (sf & -> & Hu2). split; [reflexivity|].
    apply unprompted_prompts. exact (unprompted_trans _ _ _ Hu1 Hu2).
Qed.

End OrchestrationClaims.

Lemma forced_rebuild_without_prompt_witness :
  prompts (trace (snd (generate_source_directories (scripted unbuilt_script)
                         ["//app:bin"] false false initial)))
  = prompts (trace initial)
  /\ fst (generate_source_directories (scripted unbuilt_script)
            ["//app:bin"] false false initial)
     = Value ["/repo/buck-out/gen/app/bin#link-tree"].
Proof.
  pose (s1 := snd (_normalize (scripted unbuilt_script) ["//app:bin"] initial)).
  pose (s2 := snd (_find_built_source_directories (scripted unbuilt_script)
                     ["//app:bin"] s1)).
  destruct (forced_rebuild_without_prompt (scripted unbuilt_script)
              ["//app:bin"] ["//app:bin"] initial s1 s2
              {| source_directories := []; targets_not_found := ["//app:bin"] |})
    as (Hrun & Hprompts & _).
  - vm_compute. reflexivity.
  - vm_compute. reflexivity.
  - simpl. discriminate.
  - split; [exact Hprompts|]. vm_compute. reflexivity.
Defined.

Lemma no_partial_success_witness :
  finish (scripted unbuilt_script) ["//app/..."]
    {| source_directories := ["/repo/buck-out/gen/lib/a#link-tree"];
       targets_not_found := ["//app:bin"] |}
    ["/repo/buck-out/gen/lib/a#link-tree"] initial
  = (Raised (BuckException
               (unresolved_message (scripted unbuilt_script)
                  (_map_normalized_targets_to_original ["//app:bin"] ["//app/..."]))),
     initial).
Proof.
  apply (proj2 (no_partial_success (scripted unbuilt_script) ["//app/..."]
                  false true initial)).
  simpl. discriminate.
Defined.

(** C8, as stated, fails in its second half.  The query prints nothing and
    normalization returns the empty sequence; but with the build flag set
    the builder still runs [buck build] without a target, and its non-zero
    exit ends the run with an exception; and without a build root the run
    ends with the locator's exception. *)
Lemma blank_query_run_can_raise :
  Py.all_space "" = true
  /\ fst (_normalize (scripted empty_query_failing_build_script) ["//lib/..."] initial)
     = Value []
  /\ fst (generate_source_directories (scripted empty_query_failing_build_script)
            ["//lib/..."] true true initial)
     = Raised (BuckException
                 "Could not build targets. Check the paths or run `buck clean`.")
  /\ fst (_normalize (scripted empty_query_no_root_script) ["//lib/..."] initial)
     = Value []
  /\ fst (generate_source_directories (scripted empty_query_no_root_script)
            ["//lib/..."] false true initial)
     = Raised (Exception "No .buckconfig found in ancestors of the current directory.").
Proof. repeat split. Qed.

Lemma blank_query_gives_no_targets_witness :
  (exists s1, _normalize (scripted empty_query_script) ["//lib/..."] initial
              = (Value [], s1) /\ world s1 = 0)
  /\ fst (generate_source_directories (scripted empty_query_script)
            ["//lib/..."] false true initial) = Value []
  /\ fst (generate_source_directories (scripted empty_query_script)
            ["//lib/..."] true true initial) = Value [].
Proof.
  destruct (blank_query_gives_no_targets (scripted empty_query_script)
              ["//lib/..."] true initial "" 0 eq_refl eq_refl)
    as (Hnorm & Hplain & Hbuild).
  split; [exact Hnorm|]. split.
  - exact (proj1 (Hplain "/repo" eq_refl)).
  - exact (proj1 (Hbuild "/repo" "" 1 eq_refl eq_refl)).
Defined.

(** ** The end-to-end scenarios *)

(** Build disabled, prompting allowed, both the plain and the interpreter
    tree on disk: exactly the plain directory is returned. *)
Example scenario_built :
  fst (generate_source_directories (scripted built_script)
         ["//app:bin"] false true initial)
  = Value ["/repo/buck-out/gen/app/bin#link-tree"].
Proof. vm_compute. reflexivity. Qed.

(** A declined prompt: the missing target is reported under the wildcard
    pattern it came from, and nothing is built. *)
Example scenario_declined :
  generate_source_directories (scripted unbuilt_script)
    ["//app/..."] false true initial
  = (Raised (BuckException
               ("Could not find link trees for:" ++ nl ++ "    `//app/...`." ++ nl
                ++ "   See `pyre --help` for more information.")),
     {| world := 0;
        log := [(INFO, "Normalizing target `//app/...`");
                (INFO, "Found 1 buck target.")];
        trace := [Ev_check_output (query_command ["//app/..."]) (Some 600);
                  Ev_find_root "/repo/project" ".buckconfig";
                  Ev_glob "/repo/buck-out/gen/app/bin#*link-tree";
                  Ev_get_yes_no_input "Build target?"] |}).
Proof. vm_compute. reflexivity. Qed.

(** Only the last 20 of 25 diagnostic lines reach the log. *)
Example last_20_of_25 :
  Py.last_n 20 (Py.splitlines
                  (Py.join nl (map (fun n : nat => pretty n) (seq 1 25))))
  = map (fun n : nat => pretty n) (seq 6 20).
Proof. vm_compute. reflexivity. Qed.

(** ** The exception of a missing build root *)

(** C6: where no build root is found the module raises the builtin
    [Exception], not the [BuckException] of its four other failures. *)
Lemma missing_root_raises_plain_exception :
  fst (generate_source_directories (scripted no_root_script)
         ["//app:bin"] false true initial)
  = Raised (Exception "No .buckconfig found in ancestors of the current directory.")
  /\ forall message,
       fst (generate_source_directories (scripted no_root_script)
              ["//app:bin"] false true initial)
       <> Raised (BuckException message).
Proof.
  split; [vm_compute; reflexivity|].
  intros message H. vm_compute in H. discriminate H.
Qed.

(** * Further properties of the module *)

(** ** Facts on reversing, membership and appending *)

Section MoreStringFacts.

Lemma append_nil_r (s : string) : s ++ "" = s.
Proof. induction s as [|c s IH]; [reflexivity|]. rewrite append_cons. now rewrite IH. Qed.

Lemma append_assoc (s t u : string) : (s ++ t) ++ u = s ++ (t ++ u).
Proof.
  induction s as [|c s IH]; [reflexivity|]. rewrite !append_cons. now rewrite IH.
Qed.

Lemma rev_app_rev_app (s t u : string) :
  String.rev_app (String.rev_app s t) u = String.rev_app t (s ++ u).
Proof.
  revert t u. induction s as [|c s IH]; intros t u; [reflexivity|].
  simpl String.rev_app. rewrite IH. reflexivity.
Qed.

Lemma rev_involutive (s : string) : String.rev (String.rev s) = s.
Proof. unfold String.rev. rewrite rev_app_rev_app. simpl. apply append_nil_r. Qed.

Lemma rev_app_append (s t : string) : String.rev_app s t = String.rev s ++ t.
Proof.
  unfold String.rev. revert t. induction s as [|c s IH]; intros t; [reflexivity|].
  simpl String.rev_app. rewrite (IH (String c "")), IH, append_assoc. reflexivity.
Qed.

Lemma rev_append (s t : string) : String.rev (s ++ t) = String.rev t ++ String.rev s.
Proof.
  induction s as [|c s IH].
  - now rewrite append_nil_r.
  - rewrite append_cons. unfold String.rev in *. simpl String.rev_app.
    rewrite (rev_app_append (s ++ t)), (rev_app_append s).
    unfold String.rev. rewrite IH, append_assoc. reflexivity.
Qed.

Lemma mem_char_append (c : ascii) (s t : string) :
  mem_char c (s ++ t) = mem_char c s || mem_char c t.
Proof.
  induction s as [|a s IH]; [reflexivity|]. rewrite append_cons. simpl.
  rewrite IH. now rewrite orb_assoc.
Qed.

Lemma mem_char_rev_app (c : ascii) (s t : string) :
  mem_char c (String.rev_app s t) = mem_char c s || mem_char c t.
Proof.
  revert t. induction s as [|a s IH]; intros t; [reflexivity|].
  simpl. rewrite IH. simpl.
  destruct (ascii_dec c a); simpl; [now rewrite orb_true_r|reflexivity].
Qed.

Lemma mem_char_rev (c : ascii) (s : string) :
  mem_char c (String.rev s) = mem_char c s.
Proof. unfold String.rev. rewrite mem_char_rev_app. simpl. apply orb_false_r. Qed.

End MoreStringFacts.

(** ** Facts on splitting at a character *)

Section SplitFacts.
Variable c : ascii.

Lemma split_go_cons (a : ascii) (s cur : string) :
  Py.split_go (String c "") (String a s) 0 cur
  = if ascii_dec c a
    then String.rev cur :: Py.split_go (String c "") s 0 ""
    else Py.split_go (String c "") s 0 (String a cur).
Proof. simpl. destruct (ascii_dec c a); [destruct s|]; reflexivity. Qed.

(** A piece free of the separator is split off whole. *)
Lemma split_go_piece (piece rest cur : string) :
  mem_char c piece = false ->
  Py.split_go (String c "") (piece ++ String c rest) 0 cur
  = String.rev (String.rev_app piece cur) :: Py.split_go (String c "") rest 0 "".
Proof.
  revert cur. induction piece as [|a piece IH]; intros cur H.
  - change ("" ++ String c rest) with (String c rest). rewrite split_go_cons.
    destruct (ascii_dec c c); [reflexivity|congruence].
  - rewrite append_cons, split_go_cons. simpl in H.
    destruct (ascii_dec c a); [discriminate|]. simpl in H. now rewrite IH.
Qed.

Lemma split_go_last (piece cur : string) :
  mem_char c piece = false ->
  Py.split_go (String c "") piece 0 cur = [String.rev (String.rev_app piece cur)].
Proof.
  revert cur. induction piece as [|a piece IH]; intros cur H; [reflexivity|].
  rewrite split_go_cons. simpl in H.
  destruct (ascii_dec c a); [discriminate|]. simpl in H. now rewrite IH.
Qed.

Lemma rev_rev_app_nil (s : string) : String.rev (String.rev_app s "") = s.
Proof. apply rev_involutive. Qed.

(** Splitting undoes joining, for pieces free of the separator. *)
Lemma split_join (pieces : list string) :
  pieces <> [] ->
  Forall (fun piece => mem_char c piece = false) pieces ->
  Py.split (Py.join (String c "") pieces) (String c "") = pieces.
Proof.
  unfold Py.split, Py.join.
  induction pieces as [|piece pieces IH]; intros Hne Hall; [congruence|].
  inversion Hall as [|? ? Hpiece Hrest]; subst.
  destruct pieces as [|piece' pieces].
  - simpl String.concat. rewrite split_go_last by assumption.
    now rewrite rev_rev_app_nil.
  - change (String.concat (String c "") (piece :: piece' :: pieces))
      with (piece ++ String c (String.concat (String c "") (piece' :: pieces))).
    rewrite split_go_piece by assumption. rewrite rev_rev_app_nil.
    f_equal. apply IH; [discriminate|assumption].
Qed.

(** The first piece of a split never holds the separator. *)
Lemma split_go_head (s cur : string) :
  mem_char c cur = false ->
  mem_char c (hd "" (Py.split_go (String c "") s 0 cur)) = false.
Proof.
  revert cur. induction s as [|a s IH]; intros cur H.
  - simpl. now rewrite mem_char_rev.
  - rewrite split_go_cons. destruct (ascii_dec c a) as [|Hne].
    + simpl. now rewrite mem_char_rev.
    + apply IH. simpl. destruct (ascii_dec c a); [contradiction|exact H].
Qed.

Lemma split_head (s : string) :
  mem_char c (hd "" (Py.split s (String c ""))) = false.
Proof. apply split_go_head. reflexivity. Qed.

(** The first piece is the whole string when the separator is absent, and
    the part before the first separator otherwise. *)
Lemma split_head_piece (piece rest : string) :
  mem_char c piece = false ->
  hd "" (Py.split (piece ++ String c rest) (String c "")) = piece.
Proof.
  intros H. unfold Py.split. rewrite split_go_piece by assumption.
  simpl. apply rev_rev_app_nil.
Qed.

Lemma split_head_whole (piece : string) :
  mem_char c piece = false ->
  hd "" (Py.split piece (String c "")) = piece.
Proof.
  intros H. unfold Py.split. rewrite split_go_last by assumption.
  simpl. apply rev_rev_app_nil.
Qed.

End SplitFacts.

(** ** Facts on stripping *)

Section StripFacts.

Lemma all_space_rev_app (s t : string) :
  Py.all_space (String.rev_app s t) = Py.all_space s && Py.all_space t.
Proof.
  revert t. induction s as [|a s IH]; intros t; [reflexivity|].
  simpl. rewrite IH. simpl. destruct (Py.isspace a), (Py.all_space s); reflexivity.
Qed.

Lemma all_space_rev (s : string) : Py.all_space (String.rev s) = Py.all_space s.
Proof. unfold String.rev. rewrite all_space_rev_app. simpl. apply andb_true_r. Qed.

Lemma no_space_rev_app (s t : string) :
  no_space (String.rev_app s t) = no_space s && no_space t.
Proof.
  revert t. induction s as [|a s IH]; intros t; [reflexivity|].
  simpl. rewrite IH. simpl. destruct (Py.isspace a), (no_space s); reflexivity.
Qed.

Lemma is_word_rev (w : string) : is_word w = true -> is_word (String.rev w) = true.
Proof.
  unfold is_word. intros H. apply andb_prop in H. destruct H as [Hne Hns].
  apply andb_true_intro. split.
  - destruct w as [|a w]; [discriminate|].
    unfold String.rev. simpl. rewrite rev_app_append.
    destruct (String.rev w); reflexivity.
  - unfold String.rev. rewrite no_space_rev_app, Hns. reflexivity.
Qed.

Lemma lstrip_space_prefix (p s : string) :
  Py.all_space p = true -> Py.lstrip (p ++ s) = Py.lstrip s.
Proof.
  induction p as [|a p IH]; intros H; [reflexivity|].
  rewrite append_cons. simpl in *. apply andb_prop in H. destruct H as [Ha Hp].
  rewrite Ha. now apply IH.
Qed.

Lemma lstrip_word_prefix (w s : string) :
  is_word w = true -> Py.lstrip (w ++ s) = w ++ s.
Proof.
  unfold is_word. destruct w as [|a w]; [discriminate|]. simpl.
  intros H. apply andb_prop in H. destruct H as [Ha _].
  rewrite append_cons. simpl. apply negb_true_iff in Ha. now rewrite Ha.
Qed.

(** Text that starts and ends with a word is what [strip] leaves of it,
    whatever white space surrounds it. *)
Lemma strip_between_words (leading trailing first middle final : string) :
  Py.all_space leading = true ->
  Py.all_space trailing = true ->
  is_word first = true ->
  is_word final = true ->
  Py.strip (leading ++ (first ++ middle ++ final) ++ trailing)
  = first ++ middle ++ final.
Proof.
  intros Hl Ht Hf Hz. unfold Py.strip, Py.rstrip.
  rewrite lstrip_space_prefix by assumption.
  rewrite append_assoc, lstrip_word_prefix by assumption.
  rewrite <- append_assoc.
  rewrite rev_append. rewrite lstrip_space_prefix by now rewrite all_space_rev.
  rewrite <- (append_assoc first middle final), rev_append.
  rewrite lstrip_word_prefix by now apply is_word_rev.
  rewrite <- rev_append. apply rev_involutive.
Qed.

Lemma no_space_mem (ch : ascii) (w : string) :
  no_space w = true -> Py.isspace ch = true -> mem_char ch w = false.
Proof.
  intros Hw Hch. induction w as [|a w IH]; [reflexivity|].
  simpl in *. apply andb_prop in Hw. destruct Hw as [Ha Hw].
  destruct (ascii_dec ch a) as [->|_].
  - rewrite Hch in Ha. discriminate.
  - simpl. now apply IH.
Qed.

End StripFacts.

(** ** Facts on the query's output *)

Section OutputFacts.

Lemma output_line_cons (entry : string * string) :
  output_line entry = fst entry ++ String " " (snd entry).
Proof. reflexivity. Qed.

Lemma join_cons2 (sep x y : string) (l : list string) :
  Py.join sep (x :: y :: l) = x ++ sep ++ Py.join sep (y :: l).
Proof. reflexivity. Qed.

Lemma join_ends_word (entries : list (string * string)) :
  entries <> [] ->
  forallb entry_ok entries = true ->
  exists before final,
    Py.join nl (map output_line entries) = before ++ final
    /\ is_word final = true.
Proof.
  induction entries as [|e entries IH]; intros Hne Hok; [congruence|].
  simpl in Hok. apply andb_prop in Hok. destruct Hok as [He Hrest].
  unfold entry_ok in He. apply andb_prop in He. destruct He as [_ Hd].
  destruct entries as [|e' entries].
  - exists (fst e ++ " "), (snd e). split; [|assumption].
    simpl. unfold output_line. now rewrite append_assoc.
  - destruct (IH ltac:(discriminate) Hrest) as (before & final & Heq & Hw).
    exists (output_line e ++ nl ++ before), final. split; [|assumption].
    simpl map in *. rewrite join_cons2, Heq. now rewrite !append_assoc.
Qed.

Lemma join_between_words (entries : list (string * string)) :
  entries <> [] ->
  forallb entry_ok entries = true ->
  exists first middle final,
    Py.join nl (map output_line entries) = first ++ middle ++ final
    /\ is_word first = true /\ is_word final = true.
Proof.
  intros Hne Hok. destruct entries as [|e entries]; [congruence|].
  pose proof Hok as Hok'. simpl in Hok'. apply andb_prop in Hok'.
  destruct Hok' as [He Hrest].
  unfold entry_ok in He. apply andb_prop in He. destruct He as [Ht Hd].
  destruct entries as [|e' entries].
  - exists (fst e), " ", (snd e). now repeat split.
  - destruct (join_ends_word (e' :: entries) ltac:(discriminate) Hrest)
      as (before & final & Heq & Hw).
    exists (fst e), (" " ++ snd e ++ nl ++ before), final.
    split; [|now split].
    simpl map in *. rewrite join_cons2, Heq. unfold output_line.
    now rewrite !append_assoc.
Qed.

Lemma word_no_separator (w : string) (ch : ascii) :
  is_word w = true -> Py.isspace ch = true -> mem_char ch w = false.
Proof.
  unfold is_word. intros H. apply andb_prop in H. destruct H as [_ H].
  now apply no_space_mem.
Qed.

Lemma output_line_no_newline (entry : string * string) :
  entry_ok entry = true -> mem_char "010" (output_line entry) = false.
Proof.
  unfold entry_ok. intros H. apply andb_prop in H. destruct H as [Ht Hd].
  unfold output_line. rewrite !mem_char_append.
  rewrite (word_no_separator _ "010" Ht eq_refl).
  rewrite (word_no_separator _ "010" Hd eq_refl). reflexivity.
Qed.

Lemma output_line_first_token (entry : string * string) :
  entry_ok entry = true -> hd "" (Py.split (output_line entry) " ") = fst entry.
Proof.
  unfold entry_ok. intros H. apply andb_prop in H. destruct H as [Ht _].
  rewrite output_line_cons. apply (split_head_piece " ").
  exact (word_no_separator _ " " Ht eq_refl).
Qed.

Lemma output_line_nonempty (entry : string * string) :
  entry_ok entry = true -> negb (String.eqb (output_line entry) "") = true.
Proof.
  unfold entry_ok, is_word. intros H. apply andb_prop in H. destruct H as [Ht _].
  apply andb_prop in Ht. destruct Ht as [Hne _].
  unfold output_line. destruct (fst entry); [discriminate|reflexivity].
Qed.

(** The lines of well-formed output parse back to their targets. *)
Lemma parse_output (entries : list (string * string)) (leading trailing : string) :
  entries <> [] ->
  forallb entry_ok entries = true ->
  Py.all_space leading = true ->
  Py.all_space trailing = true ->
  map (fun target => hd "" (Py.split target " "))
    (Py.filter_nonempty
       (Py.split
          (Py.strip (leading ++ Py.join nl (map output_line entries) ++ trailing))
          nl))
  = map fst entries.
Proof.
  intros Hne Hok Hl Ht.
  destruct (join_between_words entries Hne Hok) as (first & middle & final & Heq & Hf & Hz).
  rewrite Heq, strip_between_words by assumption. rewrite <- Heq.
  assert (Hlines : Forall (fun piece => mem_char "010" piece = false)
                     (map output_line entries)).
  { apply List.Forall_forall. intros line Hin. apply in_map_iff in Hin.
    destruct Hin as (e & <- & He). apply output_line_no_newline.
    rewrite List.forallb_forall in Hok. now apply Hok. }
  unfold nl. rewrite (split_join "010") by (try assumption; now destruct entries).
  clear Heq Hne. induction entries as [|e entries IH]; [reflexivity|].
  simpl in Hok. apply andb_prop in Hok. destruct Hok as [He Hrest].
  simpl map. unfold Py.filter_nonempty in *. simpl List.filter.
  rewrite (output_line_nonempty e He). simpl map.
  rewrite (output_line_first_token e He). f_equal.
  apply IH; [assumption|]. now inversion Hlines.
Qed.

End OutputFacts.

(** ** The normalizer: further properties *)

Section NormalizerProperties.
Context {World : Type} (E : externals World).

Lemma take_all_but_last {A} (l : list A) (x : A) :
  take (length (l ++ [x]) - 1) (l ++ [x]) = l.
Proof.
  rewrite length_app. simpl.
  replace (length l + 1 - 1) with (length l) by lia.
  now rewrite take_app_length.
Qed.

(** The normalizer in closed form. *)
Lemma normalize_eq (targets : list string) (s : state World) :
  _normalize E targets s
  = let info :=
      "Normalizing target" ++ (if (1 <? length targets)%nat then "s:" else "")
      ++ " `" ++ Py.join "`, `" targets ++ "`" in
    let s1 := add_events (add_log s [(INFO, info)]) [query_event targets] in
    match check_output_timeout E (query_command targets) 600 (world s) with
    | (Finished (Returned stdout), w) =>
        let found :=
          map (fun target => hd "" (Py.split target " "))
            (Py.filter_nonempty (Py.split (Py.strip stdout) nl)) in
        match found with
        | [] =>
            (Value [],
             add_log (set_world s1 w)
               [(WARNING,
                 "Provided targets do not contain any binary or unittest targets.")])
        | _ =>
            (Value found,
             add_log (set_world s1 w)
               [(INFO, "Found " ++ pretty (length found) ++ " buck target"
                       ++ (if (1 <? length found)%nat then "s" else "") ++ ".")])
        end
    | (Finished (CalledProcessError _ stderr), w) =>
        (Raised (BuckException
                   "Could not normalize targets. Check the paths or run `buck clean`."),
         add_log (set_world s1 w)
           [(ERROR, "Buck returned error: " ++ Py.strip stderr)])
    | (TimeoutExpired (Some stderr), w) =>
        (Raised (BuckException
                   ("Seems like `"
                    ++ Py.join " "
                         (take (length (query_command targets) - 1)
                            (query_command targets))
                    ++ "` is hanging." ++ nl
                    ++ "   Try running `buck clean` before trying again.")),
         add_log (set_world s1 w)
           [(ERROR, "Buck output so far: " ++ Py.strip stderr)])
    | (TimeoutExpired None, w) =>
        (Raised (AttributeError "'NoneType' object has no attribute 'decode'"),
         set_world s1 w)
    end.
Proof.
  unfold _normalize, bind, call_check_output_timeout, bind, emit, LOG, raise,
    query_event, query_command.
  simpl.
  destruct (check_output_timeout E _ 600 (world s)) as [[[out|rc err]|[err|]] w];
    simpl; try reflexivity.
  destruct (map _ _); reflexivity.
Qed.

End NormalizerProperties.

Section NormalizerBlank.

Lemma lstrip_not_blank (s : string) :
  Py.all_space s = false ->
  exists a r, Py.lstrip s = String a r /\ Py.isspace a = false.
Proof.
  induction s as [|a s IH]; [discriminate|]. simpl.
  destruct (Py.isspace a) eqn:Ha; [exact IH|].
  intros _. now exists a, s.
Qed.

Lemma lstrip_keeps_last (x : string) (a : ascii) :
  Py.isspace a = false ->
  exists z, Py.lstrip (x ++ String a "") = z ++ String a "".
Proof.
  intros Ha. induction x as [|b x IH].
  - exists "". simpl. now rewrite Ha.
  - rewrite append_cons. simpl. destruct (Py.isspace b); [exact IH|].
    exists (String b x). now rewrite append_cons.
Qed.

(** What [strip] leaves of text that is not blank starts with a character
    that is not white space. *)
Lemma strip_not_blank (s : string) :
  Py.all_space s = false ->
  exists a r, Py.strip s = String a r /\ Py.isspace a = false.
Proof.
  intros H. destruct (lstrip_not_blank s H) as (a & r & Hl & Ha).
  unfold Py.strip, Py.rstrip. rewrite Hl.
  change (String a r) with (String a "" ++ r). rewrite rev_append.
  change (String.rev (String a "")) with (String a "").
  destruct (lstrip_keeps_last (String.rev r) a Ha) as (z & ->).
  rewrite rev_append. exists a, (String.rev z). now split.
Qed.

Lemma split_go_first_nonempty (c : ascii) (s cur : string) :
  cur <> "" ->
  exists piece pieces,
    Py.split_go (String c "") s 0 cur = piece :: pieces /\ piece <> "".
Proof.
  assert (Hrev : forall t, t <> "" -> String.rev t <> "").
  { intros t Ht Hr. apply Ht. rewrite <- (rev_involutive t), Hr. reflexivity. }
  revert cur. induction s as [|a s IH]; intros cur Hcur.
  - simpl. eauto.
  - rewrite split_go_cons. destruct (ascii_dec c a); [eauto|].
    apply IH. discriminate.
Qed.

(** Text that is not blank has a first line that is not empty. *)
Lemma found_not_blank (stdout : string) :
  Py.all_space stdout = false ->
  map (fun target => hd "" (Py.split target " "))
    (Py.filter_nonempty (Py.split (Py.strip stdout) nl)) <> [].
Proof.
  intros H. destruct (strip_not_blank stdout H) as (a & r & -> & Ha).
  unfold Py.split, nl. rewrite split_go_cons.
  destruct (ascii_dec "010" a) as [<-|_]; [discriminate Ha|].
  destruct (split_go_first_nonempty "010" r (String a "") ltac:(discriminate))
    as (piece & pieces & -> & Hpiece).
  unfold Py.filter_nonempty. simpl.
  destruct (String.eqb_spec piece ""); [contradiction|]. discriminate.
Qed.

End NormalizerBlank.

Section NormalizerTheorems.
Context {World : Type} (E : externals World).

(** X1. For every outcome of the query call (it returns, exits non-zero,
    or times out with or without captured standard error) the normalizer
    makes exactly one call outside the module, the query command with its
    timeout of 600 seconds, and leaves the world the call left.  It adds
    two records to the log, but for a timeout with nothing captured, where
    the record announcing the normalization stays the only one. *)
Theorem normalize_makes_one_call (targets : list string) (s : state World) :
  let reply := fst (check_output_timeout E (query_command targets) 600 (world s)) in
  let after := snd (_normalize E targets s) in
  trace after = (trace s ++ [query_event targets])%list
  /\ world after = snd (check_output_timeout E (query_command targets) 600 (world s))
  /\ length (log after)
     = length (log s)
       + (match reply with TimeoutExpired None => 1 | _ => 2 end).
Proof.
  cbv zeta. rewrite normalize_eq. cbv zeta.
  destruct (check_output_timeout E (query_command targets) 600 (world s))
    as [[[out|rc err]|[err|]] w];
    try destruct (map _ _);
    (split; [reflexivity|split; [reflexivity|]]);
    unfold add_log, set_world, add_events; simpl log; simpl fst;
    rewrite !length_app; simpl; lia.
Qed.

(** X2. Well-formed output parses back: when the query prints one line
    [target destination] per entry, targets and destinations being words,
    with any white space before and after, the normalizer returns the
    targets of the entries, in order, and logs how many it found. *)
Theorem normalize_parses_output (targets : list string) (s : state World)
    (entries : list (string * string)) (leading trailing : string) (w : World) :
  check_output_timeout E (query_command targets) 600 (world s)
  = (Finished
       (Returned (leading ++ Py.join nl (map output_line entries) ++ trailing)), w) ->
  entries <> [] ->
  forallb entry_ok entries = true ->
  Py.all_space leading = true ->
  Py.all_space trailing = true ->
  exists s',
    _normalize E targets s = (Value (map fst entries), s')
    /\ world s' = w
    /\ last (log s')
       = Some (INFO, "Found " ++ pretty (length entries) ++ " buck target"
                     ++ (if (1 <? length entries)%nat then "s" else "") ++ ".").
Proof.
  intros Hq Hne Hok Hl Ht. rewrite normalize_eq. cbv zeta. rewrite Hq.
  rewrite parse_output by assumption.
  destruct (map fst entries) as [|t ts] eqn:Hmap.
  { destruct entries; [congruence|discriminate]. }
  eexists. split; [reflexivity|]. split; [reflexivity|].
  unfold add_log at 1. simpl log. rewrite last_snoc.
  replace (length entries) with (length (t :: ts))
    by (now rewrite <- Hmap, length_map).
  reflexivity.
Qed.

(** X3. The normalizer returns no target exactly when the output of a
    successful query is blank. *)
Theorem normalize_empty_iff_blank (targets : list string) (s : state World)
    (stdout : string) (w : World) :
  check_output_timeout E (query_command targets) 600 (world s)
  = (Finished (Returned stdout), w) ->
  (fst (_normalize E targets s) = Value [] <-> Py.all_space stdout = true).
Proof.
  intros Hq. split.
  - rewrite normalize_eq. cbv zeta. rewrite Hq.
    destruct (Py.all_space stdout) eqn:Hblank; [reflexivity|].
    pose proof (found_not_blank stdout Hblank) as Hfound.
    destruct (map _ _) as [|t ts]; [contradiction|]. discriminate.
  - intros Hblank. destruct (normalize_blank E _ _ _ _ Hq Hblank) as (s' & -> & _).
    reflexivity.
Qed.


(** X5. When the query times out the outcome turns on what buck had
    written to standard error.  With captured output the normalizer logs
    it, stripped, at error level and raises [BuckException]; the message
    quotes the command without its last argument, [python_test].  With
    nothing captured, [error.stderr] is [None]: the normalizer raises
    [AttributeError] instead and logs no error record. *)
Theorem normalize_timeout (targets : list string) (s : state World)
    (stderr : option string) (w : World) :
  check_output_timeout E (query_command targets) 600 (world s)
  = (TimeoutExpired stderr, w) ->
  exists s',
    world s' = w
    /\ match stderr with
       | Some captured =>
           _normalize E targets s
           = (Raised (BuckException
                        ("Seems like `"
                         ++ Py.join " " (["buck"; "targets"; "--show-output"]
                                         ++ targets ++ ["--type"; "python_binary"])
                         ++ "` is hanging." ++ nl
                         ++ "   Try running `buck clean` before trying again.")),
              s')
           /\ last (log s')
              = Some (ERROR, "Buck output so far: " ++ Py.strip captured)
       | None =>
           _normalize E targets s
           = (Raised (AttributeError "'NoneType' object has no attribute 'decode'"),
              s')
           /\ length (log s') = length (log s) + 1
           /\ Forall (fun record => fst record <> ERROR)
                (drop (length (log s)) (log s'))
       end.
Proof.
  intros Hq. rewrite normalize_eq. cbv zeta. rewrite Hq.
  assert (Hcmd : take (length (query_command targets) - 1) (query_command targets)
                 = (["buck"; "targets"; "--show-output"] ++ targets
                    ++ ["--type"; "python_binary"])%list).
  { unfold query_command.
    replace (["buck"; "targets"; "--show-output"] ++ targets
             ++ ["--type"; "python_binary"; "python_test"])%list
      with ((["buck"; "targets"; "--show-output"] ++ targets
             ++ ["--type"; "python_binary"]) ++ ["python_test"])%list
      by (now rewrite <- !app_assoc).
    apply take_all_but_last. }
  destruct stderr as [captured|].
  - rewrite Hcmd. eexists. split; [|split; [reflexivity|]].
    + reflexivity.
    + unfold add_log at 1. simpl log. now rewrite last_snoc.
  - eexists. split; [|split; [reflexivity|]].
    + reflexivity.
    + unfold set_world, add_events, add_log. simpl log. split.
      * rewrite length_app. simpl. lia.
      * rewrite drop_app_length. repeat constructor. discriminate.
Qed.

End NormalizerTheorems.

Lemma normalize_parses_output_witness :
  exists s',
    _normalize (scripted two_line_query_script) ["//..."] initial
    = (Value ["//lib:a"; "//app:bin"], s')
    /\ world s' = 0.
Proof.
  destruct (normalize_parses_output (scripted two_line_query_script) ["//..."] initial
              [("//lib:a", "buck-out/gen/lib/a.par");
               ("//app:bin", "buck-out/gen/app/bin.par")]
              nl (nl ++ nl) 0 eq_refl ltac:(discriminate) eq_refl eq_refl eq_refl)
    as (s' & Hrun & Hw & _).
  exists s'. split; [exact Hrun|exact Hw].
Defined.

Lemma normalize_empty_iff_blank_witness :
  fst (_normalize (scripted empty_query_script) ["//lib/..."] initial) = Value []
  <-> Py.all_space "" = true.
Proof.
  exact (normalize_empty_iff_blank (scripted empty_query_script) ["//lib/..."]
           initial "" 0 eq_refl).
Defined.


Lemma normalize_timeout_witness :
  (exists s',
     _normalize (scripted hanging_query_script) ["//lib/..."] initial
     = (Raised (BuckException
                  ("Seems like `buck targets --show-output //lib/... --type python_binary"
                   ++ "` is hanging." ++ nl
                   ++ "   Try running `buck clean` before trying again.")),
        s')
     /\ last (log s') = Some (ERROR, "Buck output so far: waiting for the daemon"))
  /\ (exists s',
        _normalize (scripted silent_hanging_query_script) ["//lib/..."] initial
        = (Raised (AttributeError "'NoneType' object has no attribute 'decode'"), s')
        /\ length (log s') = 1).
Proof.
  split.
  - destruct (normalize_timeout (scripted hanging_query_script) ["//lib/..."] initial
                (Some "  waiting for the daemon  ") 0 eq_refl)
      as (s' & _ & Hrun & Hlog).
    exists s'. split; [exact Hrun|exact Hlog].
  - destruct (normalize_timeout (scripted silent_hanging_query_script) ["//lib/..."]
                initial None 0 eq_refl)
      as (s' & _ & Hrun & Hlen & _).
    exists s'. split; [exact Hrun|exact Hlen].
Defined.

(** ** Target attribution: further properties *)

Section AttributionProperties.

Lemma mapped_targets_cons_size (original_targets unbuilt : list string)
    (acc : gset string) :
  size (fold_left
          (fun acc target => acc ∪ {[ mapped_name target original_targets ]})
          unbuilt acc)
  <= size acc + length unbuilt.
Proof.
  revert acc. induction unbuilt as [|t l IH]; intros acc; simpl; [lia|].
  etransitivity; [apply IH|].
  rewrite size_union_alt.
  assert (size ({[mapped_name t original_targets]} ∖ acc : gset string) <= 1).
  { rewrite <- (size_singleton (C := gset string) (mapped_name t original_targets)).
    apply subseteq_size. intros x Hx. apply elem_of_difference in Hx. tauto. }
  lia.
Qed.

(** X6. Every displayed name is accounted for: it is an original pattern that
    matches one of the unbuilt targets, or an unbuilt target that no
    original pattern matches. *)
Theorem attribution_names_are_accounted_for (name : string)
    (unbuilt original_targets : list string) :
  In name (_map_normalized_targets_to_original unbuilt original_targets) ->
  (In name original_targets
   /\ exists target, In target unbuilt /\ matches name target = true)
  \/ (In name unbuilt
      /\ forall q, In q original_targets -> matches q name = false).
Proof.
  intros H. apply In_map_normalized in H. destruct H as (target & Hin & Heq).
  subst name. unfold mapped_name.
  destruct (scan_originals target original_targets) as [p|] eqn:Hs.
  - left. apply scan_originals_Some in Hs. destruct Hs as [Hp Hm].
    split; [assumption|]. now exists target.
  - right. split; [assumption|]. now apply scan_originals_None.
Qed.

(** X7. The result is de-duplicated and covers every unbuilt target: it has no
    repeated name, at most one name per unbuilt target, the name of every
    unbuilt target, and it is empty only for no unbuilt target. *)
Theorem attribution_covers_without_duplicates
    (unbuilt original_targets : list string) :
  List.NoDup (_map_normalized_targets_to_original unbuilt original_targets)
  /\ length (_map_normalized_targets_to_original unbuilt original_targets)
     <= length unbuilt
  /\ (forall target, In target unbuilt ->
        In (mapped_name target original_targets)
          (_map_normalized_targets_to_original unbuilt original_targets))
  /\ (_map_normalized_targets_to_original unbuilt original_targets = []
      <-> unbuilt = []).
Proof.
  assert (Hcover : forall target, In target unbuilt ->
            In (mapped_name target original_targets)
              (_map_normalized_targets_to_original unbuilt original_targets)).
  { intros target Hin. apply In_map_normalized. now exists target. }
  split.
  { unfold _map_normalized_targets_to_original.
    apply (proj1 (NoDup_ListNoDup _)), NoDup_elements. }
  split.
  { unfold _map_normalized_targets_to_original, mapped_targets.
    pose proof (mapped_targets_cons_size original_targets unbuilt ∅) as H.
    rewrite size_empty in H. exact H. }
  split; [exact Hcover|]. split.
  - intros Hnil. destruct unbuilt as [|t l]; [reflexivity|].
    specialize (Hcover t (or_introl eq_refl)). rewrite Hnil in Hcover. contradiction.
  - intros ->. reflexivity.
Qed.

(** X8. Targets under one wildcard pattern collapse into it: when the last
    original pattern is [pkg/...] and every unbuilt target starts with
    [pkg], the result is that pattern alone. *)
Theorem attribution_collapses_under_wildcard (pkg : string)
    (unbuilt before : list string) :
  unbuilt <> [] ->
  (forall target, In target unbuilt -> Py.startswith target pkg = true) ->
  _map_normalized_targets_to_original unbuilt (before ++ [pkg ++ "/..."])
  = [pkg ++ "/..."].
Proof.
  intros Hne Hall.
  assert (Hname : forall target, In target unbuilt ->
            mapped_name target (before ++ [pkg ++ "/..."]) = pkg ++ "/...").
  { intros target Hin. unfold mapped_name.
    rewrite scan_originals_last_match; [reflexivity| |intros q []].
    rewrite matches_wildcard. now apply Hall. }
  unfold _map_normalized_targets_to_original.
  assert (Hset : mapped_targets unbuilt (before ++ [pkg ++ "/..."])
                 = {[ pkg ++ "/..." ]}).
  { apply set_eq. intros name. rewrite mapped_targets_elem, elem_of_singleton. split.
    - intros (target & Hin & ->). now apply Hname.
    - intros ->. destruct unbuilt as [|t l]; [congruence|].
      exists t. split; [now left|]. symmetry. apply Hname. now left. }
  rewrite Hset. apply elements_singleton.
Qed.

(** X9. The fallback: an unbuilt target that no original pattern matches is
    displayed under its own name; with no original pattern at all the
    result holds exactly the unbuilt targets. *)
Theorem attribution_falls_back_to_target (target : string)
    (unbuilt original_targets : list string) :
  In target unbuilt ->
  (forall q, In q original_targets -> matches q target = false) ->
  mapped_name target original_targets = target
  /\ In target (_map_normalized_targets_to_original unbuilt original_targets)
  /\ (forall name,
        In name (_map_normalized_targets_to_original unbuilt []) <-> In name unbuilt).
Proof.
  intros Hin Hnone.
  assert (Hname : mapped_name target original_targets = target).
  { unfold mapped_name.
    now rewrite (proj2 (scan_originals_None target original_targets) Hnone). }
  split; [exact Hname|]. split.
  - apply In_map_normalized. exists target. now split.
  - intros name. rewrite In_map_normalized. split.
    + now intros (t & Ht & ->).
    + intros Hn. now exists name.
Qed.

End AttributionProperties.

Lemma attribution_names_are_accounted_for_witness :
  (In "//lib/..." ["//lib/..."; "//app:bin"]
   /\ exists target, In target ["//lib:a"; "//tools:t"]
                     /\ matches "//lib/..." target = true)
  \/ (In "//lib/..." ["//lib:a"; "//tools:t"]
      /\ forall q, In q ["//lib/..."; "//app:bin"] -> matches q "//lib/..." = false).
Proof.
  apply (attribution_names_are_accounted_for "//lib/..."
           ["//lib:a"; "//tools:t"] ["//lib/..."; "//app:bin"]).
  vm_compute. now left.
Defined.

Lemma attribution_collapses_under_wildcard_witness :
  _map_normalized_targets_to_original ["//lib:a"; "//lib/x:b"; "//lib/x/y:c"]
    (["//app:bin"] ++ ["//lib" ++ "/..."])
  = ["//lib" ++ "/..."].
Proof.
  apply (attribution_collapses_under_wildcard "//lib"
           ["//lib:a"; "//lib/x:b"; "//lib/x/y:c"] ["//app:bin"]).
  - discriminate.
  - intros target [<-|[<-|[<-|[]]]]; reflexivity.
Defined.

Lemma attribution_falls_back_to_target_witness :
  mapped_name "//tools:t" ["//lib/..."; "//app:bin"] = "//tools:t"
  /\ In "//tools:t"
       (_map_normalized_targets_to_original ["//lib:a"; "//tools:t"]
          ["//lib/..."; "//app:bin"]).
Proof.
  destruct (attribution_falls_back_to_target "//tools:t" ["//lib:a"; "//tools:t"]
              ["//lib/..."; "//app:bin"]) as (H1 & H2 & _).
  - right. now left.
  - intros q [<-|[<-|[]]]; reflexivity.
  - split; [exact H1|exact H2].
Defined.

(** ** Facts on replacing a character, finding [//] and joining paths *)

Section PathFacts.

Lemma replace_go_char_cons (c a : ascii) (new s : string) :
  Py.replace_go (String c "") new (String a s) 0
  = if ascii_dec c a
    then new ++ Py.replace_go (String c "") new s 0
    else String a (Py.replace_go (String c "") new s 0).
Proof. simpl. destruct (ascii_dec c a); [destruct s|]; reflexivity. Qed.

Lemma replace_char_absent (c : ascii) (new s : string) :
  mem_char c new = false ->
  mem_char c (Py.replace s (String c "") new) = false.
Proof.
  intros Hnew. unfold Py.replace. induction s as [|a s IH]; [reflexivity|].
  rewrite replace_go_char_cons. destruct (ascii_dec c a) as [|Hne].
  - now rewrite mem_char_append, Hnew.
  - simpl. destruct (ascii_dec c a); [contradiction|exact IH].
Qed.

Lemma replace_char_append (c : ascii) (new s t : string) :
  Py.replace (s ++ t) (String c "") new
  = Py.replace s (String c "") new ++ Py.replace t (String c "") new.
Proof.
  unfold Py.replace. induction s as [|a s IH]; [reflexivity|].
  rewrite append_cons, !replace_go_char_cons.
  destruct (ascii_dec c a); rewrite IH; [now rewrite append_assoc|reflexivity].
Qed.

Lemma replace_char_id (c : ascii) (new s : string) :
  mem_char c s = false -> Py.replace s (String c "") new = s.
Proof.
  unfold Py.replace. induction s as [|a s IH]; intros H; [reflexivity|].
  rewrite replace_go_char_cons. simpl in H.
  destruct (ascii_dec c a); simpl in H; [discriminate|]. now rewrite IH.
Qed.

Lemma mem_char_cons (c a : ascii) (s : string) :
  mem_char c (String a s) = (if ascii_dec c a then true else false) || mem_char c s.
Proof. reflexivity. Qed.

Lemma prefix_cons (a b : ascii) (s t : string) :
  String.prefix (String a s) (String b t)
  = if ascii_dec a b then String.prefix s t else false.
Proof. reflexivity. Qed.

Lemma index_cons (sub : string) (b : ascii) (s : string) :
  String.index 0 sub (String b s)
  = if String.prefix sub (String b s) then Some 0
    else match String.index 0 sub s with
         | Some n => Some (S n)
         | None => None
         end.
Proof. reflexivity. Qed.

Lemma index_double_slash (cell rest : string) :
  mem_char "/" cell = false ->
  String.index 0 "//" (cell ++ "//" ++ rest) = Some (String.length cell).
Proof.
  induction cell as [|a cell IH]; intros H.
  - change ("" ++ "//" ++ rest) with (String "/" (String "/" rest)).
    simpl. now destruct rest.
  - rewrite append_cons, index_cons, prefix_cons. rewrite mem_char_cons in H.
    destruct (ascii_dec "/" a) as [|Hne]; [discriminate H|].
    rewrite (IH H). reflexivity.
Qed.

Lemma slice_from_append (p s : string) :
  Py.slice_from (String.length p) (p ++ s) = s.
Proof.
  unfold Py.slice_from. rewrite length_append.
  replace (String.length p + String.length s - String.length p)
    with (String.length s) by lia.
  apply substring_tail.
Qed.

Lemma find_double_slash (cell rest : string) :
  mem_char "/" cell = false ->
  Py.find (cell ++ "//" ++ rest) "//" = Z.of_nat (String.length cell)
  /\ Py.slice_from (Z.to_nat (Z.of_nat (String.length cell) + 2))
       (cell ++ "//" ++ rest) = rest.
Proof.
  intros H. split.
  - unfold Py.find. now rewrite index_double_slash.
  - replace (Z.to_nat (Z.of_nat (String.length cell) + 2))
      with (String.length (cell ++ "//")) by (rewrite length_append; simpl; lia).
    rewrite <- append_assoc. apply slice_from_append.
Qed.

Lemma startswith_cons_append (a : ascii) (s t : string) :
  Py.startswith (String a s ++ t) "/" = Py.startswith (String a s) "/".
Proof. rewrite append_cons. unfold Py.startswith. simpl. now destruct t, s. Qed.

End PathFacts.

(** ** The output locator: further properties *)

Section LocatorProperties.
Context {World : Type} (E : externals World).

Lemma filter_StronglySorted {A} (R : A -> A -> Prop) (f : A -> bool) (l : list A) :
  StronglySorted R l -> StronglySorted R (List.filter f l).
Proof.
  induction 1 as [|x l Hl IH Hx]; simpl; [constructor|].
  destruct (f x); [|assumption]. constructor; [assumption|].
  apply List.Forall_forall. intros y Hy. apply filter_In in Hy.
  rewrite List.Forall_forall in Hx. now apply Hx.
Qed.

Lemma glob_events_length (buck_root : string) (targets : list string) :
  length (List.filter is_glob (glob_events buck_root targets)) = length targets.
Proof. induction targets as [|t l IH]; simpl; [reflexivity|now rewrite IH]. Qed.

Lemma sorted_length (l : list string) : length (Py.sorted l) = length l.
Proof. unfold Py.sorted. now rewrite (merge_sort_Permutation String.le l). Qed.

(** X10. A locator pass only reads: it leaves the world and the log as they
    are.  With a build root it globs once per target (a repeated target is
    globbed again), in sorted order, after the one search for the root;
    without a build root it raises after that search and globs nothing. *)
Theorem locator_only_reads (targets : list string) (s : state World) :
  let cwd := os_getcwd E (world s) in
  let run := _find_built_source_directories E targets s in
  world (snd run) = world s
  /\ log (snd run) = log s
  /\ (forall buck_root,
        find_root E cwd ".buckconfig" (world s) = Some buck_root ->
        trace (snd run) = (trace s ++ locate_events cwd buck_root targets)%list
        /\ length (List.filter is_glob (locate_events cwd buck_root targets))
           = length targets)
  /\ (find_root E cwd ".buckconfig" (world s) = None ->
      run = (Raised (Exception
                       "No .buckconfig found in ancestors of the current directory."),
             add_events s [Ev_find_root cwd ".buckconfig"])).
Proof.
  cbv zeta. rewrite find_built_eq. cbv zeta.
  destruct (find_root E (os_getcwd E (world s)) ".buckconfig" (world s)) as [r|].
  - split; [reflexivity|]. split; [reflexivity|]. split; [|discriminate].
    intros buck_root Hr. injection Hr as <-. split; [reflexivity|].
    unfold locate_events. simpl. now rewrite glob_events_length, sorted_length.
  - split; [reflexivity|]. split; [reflexivity|]. split; [discriminate|reflexivity].
Qed.

(** X11. The not-found list comes out sorted, and no longer than the input. *)
Theorem not_found_list_is_sorted (targets : list string) (s s' : state World)
    (buck_out : BuckOut) :
  _find_built_source_directories E targets s = (Value buck_out, s') ->
  Sorted String.le (targets_not_found buck_out)
  /\ length (targets_not_found buck_out) <= length targets.
Proof.
  rewrite find_built_eq. cbv zeta.
  destruct (find_root E _ _ _) as [r|]; [|discriminate].
  intros H. injection H as <- _. simpl. unfold located_not_found. split.
  - apply StronglySorted_Sorted, filter_StronglySorted.
    unfold Py.sorted. apply StronglySorted_merge_sort; apply _.
  - etransitivity; [apply List.filter_length_le|]. now rewrite sorted_length.
Qed.

(** X12. The path form of a target never holds a colon. *)
Theorem target_path_holds_no_colon (target : string) :
  mem_char ":" (target_path target) = false.
Proof. unfold target_path. now apply replace_char_absent. Qed.

(** X13. The path form of [cell//package:name] is [package/name]: everything up
    to the first [//] is dropped and the colon becomes a slash. *)
Theorem target_path_of_cell_target (cell package name : string) :
  mem_char "/" cell = false ->
  mem_char ":" package = false ->
  mem_char ":" name = false ->
  target_path (cell ++ "//" ++ package ++ ":" ++ name) = package ++ "/" ++ name.
Proof.
  intros Hcell Hpkg Hname. unfold target_path.
  destruct (find_double_slash cell (package ++ ":" ++ name) Hcell) as [Hfind Hslice].
  rewrite Hfind, Hslice.
  replace (Z.of_nat (String.length cell) =? -1)%Z with false
    by (symmetry; apply Z.eqb_neq; lia).
  simpl negb. cbv iota.
  rewrite replace_char_append, (replace_char_id ":" "/" package Hpkg).
  change (":" ++ name) with (String ":" name).
  unfold Py.replace at 1. rewrite replace_go_char_cons.
  destruct (ascii_dec ":" ":"); [|congruence].
  fold (Py.replace name ":" "/"). now rewrite (replace_char_id ":" "/" name Hname).
Qed.

(** X14. The glob pattern lies under the build root, [root/buck-out/gen/...],
    when the root is a non-empty path without a trailing slash and the path
    form of the target does not start with a slash. *)
Theorem glob_pattern_under_root (buck_root target : string) :
  buck_root <> "" ->
  Py.endswith buck_root "/" = false ->
  Py.startswith (target_path target) "/" = false ->
  glob_pattern buck_root target
  = buck_root ++ "/buck-out/gen/" ++ target_path target ++ "#*link-tree".
Proof.
  intros Hne Hend Hstart. unfold glob_pattern, Py.path_join. simpl fold_left.
  unfold Py.path_join_step at 2.
  change (Py.startswith "buck-out/gen/" "/") with false. cbv iota.
  destruct (String.eqb_spec buck_root "") as [|_]; [contradiction|].
  rewrite Hend. simpl orb. cbv iota.
  unfold Py.path_join_step.
  assert (Hb : Py.startswith (target_path target ++ "#*link-tree") "/" = false).
  { destruct (target_path target) as [|a p]; [reflexivity|].
    now rewrite startswith_cons_append. }
  rewrite Hb.
  replace (buck_root ++ "/" ++ "buck-out/gen/")
    with ((buck_root ++ "/buck-out/gen") ++ "/")
    by (now rewrite append_assoc).
  rewrite endswith_append, orb_true_r.
  now rewrite !append_assoc.
Qed.

(** X15. A target whose path form starts with a slash makes the glob pattern
    absolute: the build root is dropped from it. *)
Theorem glob_pattern_leaves_root (buck_root target : string) :
  Py.startswith (target_path target) "/" = true ->
  glob_pattern buck_root target = target_path target ++ "#*link-tree".
Proof.
  intros Hstart. unfold glob_pattern, Py.path_join. simpl fold_left.
  unfold Py.path_join_step at 1.
  destruct (target_path target) as [|a p]; [discriminate|].
  now rewrite startswith_cons_append, Hstart.
Qed.

End LocatorProperties.

Lemma locator_only_reads_witness :
  trace (snd (_find_built_source_directories (scripted built_script)
                ["//lib:a"; "//app:bin"; "//lib:a"] initial))
  = [Ev_find_root "/repo/project" ".buckconfig";
     Ev_glob "/repo/buck-out/gen/app/bin#*link-tree";
     Ev_glob "/repo/buck-out/gen/lib/a#*link-tree";
     Ev_glob "/repo/buck-out/gen/lib/a#*link-tree"]
  /\ _find_built_source_directories (scripted no_root_script) ["//app:bin"] initial
     = (Raised (Exception
                  "No .buckconfig found in ancestors of the current directory."),
        add_events initial [Ev_find_root "/repo/project" ".buckconfig"]).
Proof.
  split.
  - exact (proj1 (proj1 (proj2 (proj2 (locator_only_reads (scripted built_script)
             ["//lib:a"; "//app:bin"; "//lib:a"] initial))) "/repo" eq_refl)).
  - exact (proj2 (proj2 (proj2 (locator_only_reads (scripted no_root_script)
             ["//app:bin"] initial))) eq_refl).
Defined.

Lemma not_found_list_is_sorted_witness :
  Sorted String.le ["//app:bin"; "//lib:a"] /\ 2 <= 2.
Proof.
  apply (not_found_list_is_sorted (scripted unbuilt_script) ["//lib:a"; "//app:bin"]
           initial
           (snd (_find_built_source_directories (scripted unbuilt_script)
                   ["//lib:a"; "//app:bin"] initial))
           {| source_directories := [];
              targets_not_found := ["//app:bin"; "//lib:a"] |}).
  vm_compute. reflexivity.
Defined.

Lemma target_path_of_cell_target_witness :
  target_path ("fbcode" ++ "//" ++ "lib/x" ++ ":" ++ "b") = "lib/x" ++ "/" ++ "b".
Proof.
  apply (target_path_of_cell_target "fbcode" "lib/x" "b"); reflexivity.
Defined.

Lemma glob_pattern_under_root_witness :
  glob_pattern "/repo" "//lib/x:b"
  = "/repo" ++ "/buck-out/gen/" ++ target_path "//lib/x:b" ++ "#*link-tree".
Proof.
  apply (glob_pattern_under_root "/repo" "//lib/x:b");
    [discriminate|reflexivity|reflexivity].
Defined.

Lemma glob_pattern_leaves_root_witness :
  glob_pattern "/repo" "///tmp:x" = target_path "///tmp:x" ++ "#*link-tree".
Proof.
  apply (glob_pattern_leaves_root "/repo" "///tmp:x"). reflexivity.
Defined.

(** ** Facts on the calls of a run *)

Section CallFacts.
Context {World : Type} (E : externals World).

Lemma builds_app (l1 l2 : list event) : builds (l1 ++ l2) = builds l1 + builds l2.
Proof. unfold builds. now rewrite List.filter_app, length_app. Qed.

Lemma builds_glob_events (buck_root : string) (targets : list string) :
  builds (glob_events buck_root targets) = 0.
Proof. induction targets as [|t l IH]; [reflexivity|exact IH]. Qed.

Lemma calls_within_refl (s : state World) : calls_within 0 0 s s.
Proof. exists []. split; [now rewrite app_nil_r|split; reflexivity]. Qed.

Lemma calls_within_weaken (p b p' b' : nat) (s s' : state World) :
  p <= p' -> b <= b' -> calls_within p b s s' -> calls_within p' b' s s'.
Proof. intros Hp Hb (evs & Ht & H1 & H2). exists evs. repeat split; [assumption|lia|lia]. Qed.

Lemma calls_within_trans (p1 b1 p2 b2 : nat) (s1 s2 s3 : state World) :
  calls_within p1 b1 s1 s2 -> calls_within p2 b2 s2 s3 ->
  calls_within (p1 + p2) (b1 + b2) s1 s3.
Proof.
  intros (e1 & H1 & P1 & B1) (e2 & H2 & P2 & B2). exists (e1 ++ e2)%list.
  split; [now rewrite H2, H1, app_assoc|].
  rewrite prompts_app, builds_app. lia.
Qed.

(** Sequencing adds up the bounds. *)
Lemma bind_calls {A B} (m : M World A) (k : A -> M World B)
    (p1 b1 p2 b2 : nat) (s : state World) :
  calls_within p1 b1 s (snd (m s)) ->
  (forall a s1, calls_within p2 b2 s1 (snd (k a s1))) ->
  calls_within (p1 + p2) (b1 + b2) s (snd (bind m k s)).
Proof.
  intros Hm Hk. unfold bind. destruct (m s) as [[e|a] s1]; simpl in *.
  - eapply calls_within_weaken; [| |exact Hm]; lia.
  - eapply calls_within_trans; [exact Hm|apply Hk].
Qed.

Lemma normalize_calls (targets : list string) (s : state World) :
  calls_within 0 0 s (snd (_normalize E targets s)).
Proof.
  exists [query_event targets]. split; [apply normalize_trace|].
  split; reflexivity.
Qed.

Lemma build_calls (targets original_targets : list string) (s : state World) :
  calls_within 0 1 s (snd (_build_targets E targets original_targets s)).
Proof.
  exists [build_event targets]. split; [apply build_targets_trace|].
  split; [reflexivity|]. unfold builds, build_event, build_command. simpl. lia.
Qed.

Lemma find_built_calls (targets : list string) (s : state World) :
  calls_within 0 0 s (snd (_find_built_source_directories E targets s)).
Proof.
  rewrite find_built_eq. cbv zeta.
  destruct (find_root E _ _ _) as [r|]; eexists; (split; [reflexivity|]); split;
    try reflexivity.
  - change (prompts (glob_events r (Py.sorted targets)) <= 0).
    now rewrite prompts_glob_events.
  - change (builds (glob_events r (Py.sorted targets)) <= 0).
    now rewrite builds_glob_events.
Qed.

Lemma prompt_eq (question : string) (s : state World) :
  call_get_yes_no_input E question s
  = (Value (fst (get_yes_no_input E question (world s))),
     set_world (add_events s [Ev_get_yes_no_input question])
       (snd (get_yes_no_input E question (world s)))).
Proof.
  unfold call_get_yes_no_input, bind, emit. simpl.
  now destruct (get_yes_no_input E question (world s)).
Qed.

Lemma prompt_calls (question : string) (s : state World) :
  calls_within 1 0 s (snd (call_get_yes_no_input E question s)).
Proof.
  rewrite prompt_eq. exists [Ev_get_yes_no_input question].
  split; [reflexivity|]. split; [reflexivity|]. unfold builds. simpl. lia.
Qed.

Lemma ret_calls {A} (a : A) (s : state World) :
  calls_within 0 0 s (snd (ret a s)).
Proof. apply calls_within_refl. Qed.

Lemma finish_calls (original_targets : list string) (buck_out : BuckOut)
    (directories : list string) (s : state World) :
  calls_within 0 0 s (snd (finish E original_targets buck_out directories s)).
Proof. rewrite finish_state. apply calls_within_refl. Qed.

Lemma retry_calls (targets original_targets : list string) (build prompt : bool)
    (buck_out : BuckOut) (directories : list string) (s : state World) :
  calls_within 1 1 s
    (snd (retry E targets original_targets build prompt buck_out directories s)).
Proof.
  unfold retry. destruct (nonempty (targets_not_found buck_out)).
  - apply (bind_calls _ _ 1 0 0 1).
    + destruct (negb build && negb prompt).
      * eapply calls_within_weaken; [| |apply ret_calls]; lia.
      * apply prompt_calls.
    + intros [|] s1.
      * apply (bind_calls _ _ 0 1 0 0); [apply build_calls|].
        intros _ s2. apply (bind_calls _ _ 0 0 0 0); [apply find_built_calls|].
        intros bo s3. apply ret_calls.
      * eapply calls_within_weaken; [| |apply ret_calls]; lia.
  - eapply calls_within_weaken; [| |apply ret_calls]; lia.
Qed.

(** A run that returns ends with a locator pass over the normalized
    targets that found them all. *)
Lemma generate_Value_last_pass (original_targets : list string)
    (build prompt : bool) (s s' : state World) (dirs : list string) :
  generate_source_directories E original_targets build prompt s = (Value dirs, s') ->
  exists targets s1,
    fst (_normalize E original_targets s) = Value targets
    /\ _find_built_source_directories E targets s1
       = (Value {| source_directories := dirs; targets_not_found := [] |}, s').
Proof.
  intros Hrun. unfold generate_source_directories, bind in Hrun.
  destruct (_normalize E original_targets s) as [[e|targets] s1] eqn:Hnorm;
    [discriminate|].
  destruct ((if build then _build_targets E targets original_targets else ret tt) s1)
    as [[e|u] s2]; [discriminate|].
  destruct (_find_built_source_directories E targets s2)
    as [[e|buck_out] s3] eqn:Hfirst; [discriminate|].
  destruct (retry E targets original_targets build prompt buck_out
              (source_directories buck_out) s3)
    as [[e|[buck_out' dirs']] s4] eqn:Hretry; [discriminate|].
  simpl in Hrun. apply finish_Value in Hrun. destruct Hrun as (Hnil & -> & ->).
  destruct (retry_Value E _ _ _ _ _ _ _ _ _ _ Hfirst Hretry) as [-> [Hne|[s5 Hlast]]];
    [contradiction|].
  exists targets, s5. split; [reflexivity|].
  rewrite Hlast. destruct buck_out' as [d n]. simpl in *. now subst n.
Qed.

End CallFacts.

(** ** The builder and the orchestration: further properties *)

Section RunProperties.
Context {World : Type} (E : externals World).

(** X16. The original patterns only reach the builder's log: its outcome, the
    world it leaves and the calls it makes depend on the normalized targets
    alone. *)
Theorem build_ignores_original_targets (targets original1 original2 : list string)
    (s : state World) :
  let run1 := _build_targets E targets original1 s in
  let run2 := _build_targets E targets original2 s in
  fst run1 = fst run2
  /\ world (snd run1) = world (snd run2)
  /\ trace (snd run1) = trace (snd run2)
  /\ trace (snd run1) = (trace s ++ [build_event targets])%list.
Proof.
  cbv zeta. rewrite !build_targets_eq. cbv zeta.
  destruct (check_output E (build_command targets) (world s)) as [[out|rc err] w];
    repeat split.
Qed.

(** X17. A run never prompts more than once and never builds more than twice,
    nor more than once when the build flag is not set. *)
Theorem run_call_bounds (original_targets : list string) (build prompt : bool)
    (s : state World) :
  let after :=
    snd (generate_source_directories E original_targets build prompt s) in
  prompts (trace after) <= prompts (trace s) + 1
  /\ builds (trace after) <= builds (trace s) + (if build then 2 else 1).
Proof.
  cbv zeta.
  assert (H : calls_within 1 (if build then 2 else 1) s
                (snd (generate_source_directories E original_targets build prompt s))).
  { unfold generate_source_directories.
    destruct build.
    - apply (bind_calls _ _ 0 0 1 2); [apply normalize_calls|]. intros targets s1.
      apply (bind_calls _ _ 0 1 1 1); [apply build_calls|]. intros _ s2.
      apply (bind_calls _ _ 0 0 1 1); [apply find_built_calls|]. intros bo s3.
      apply (bind_calls _ _ 1 1 0 0); [apply retry_calls|]. intros r s4.
      apply finish_calls.
    - apply (bind_calls _ _ 0 0 1 1); [apply normalize_calls|]. intros targets s1.
      apply (bind_calls _ _ 0 0 1 1); [apply ret_calls|]. intros _ s2.
      apply (bind_calls _ _ 0 0 1 1); [apply find_built_calls|]. intros bo s3.
      apply (bind_calls _ _ 1 1 0 0); [apply retry_calls|]. intros r s4.
      apply finish_calls. }
  destruct H as (evs & -> & Hp & Hb). rewrite prompts_app, builds_app. lia.
Qed.

(** X18. A query that times out or exits non-zero ends the run at once,
    the query being the only call made: nothing is built, searched or
    asked.  The run ends with a [BuckException], but for a timeout with
    nothing captured on standard error, where it ends with the
    [AttributeError] of [error.stderr.decode()]. *)
Theorem run_stops_at_failed_query (original_targets : list string)
    (build prompt : bool) (s : state World) (reply : timed) (w : World) :
  check_output_timeout E (query_command original_targets) 600 (world s)
  = (reply, w) ->
  (forall stdout, reply <> Finished (Returned stdout)) ->
  exists e s',
    generate_source_directories E original_targets build prompt s = (Raised e, s')
    /\ trace s' = (trace s ++ [query_event original_targets])%list
    /\ world s' = w
    /\ match reply with
       | TimeoutExpired None =>
           e = AttributeError "'NoneType' object has no attribute 'decode'"
       | _ => exists message, e = BuckException message
       end.
Proof.
  intros Hq Hfail. unfold generate_source_directories, bind.
  rewrite normalize_eq. cbv zeta. rewrite Hq.
  destruct reply as [[out|rc err]|[err|]].
  - now destruct (Hfail out).
  - eexists _, _. repeat split. eexists. reflexivity.
  - eexists _, _. repeat split. eexists. reflexivity.
  - eexists _, _. repeat split.
Qed.

(** X19. When the first locator pass finds every target the run returns its
    directories and stops there: no prompt, no rebuild, no second pass. *)
Theorem run_returns_first_pass (original_targets targets : list string)
    (build prompt : bool) (s s1 s1' s2 : state World) (buck_out : BuckOut) :
  _normalize E original_targets s = (Value targets, s1) ->
  (if build then _build_targets E targets original_targets else ret tt) s1
  = (Value tt, s1') ->
  _find_built_source_directories E targets s1' = (Value buck_out, s2) ->
  targets_not_found buck_out = [] ->
  generate_source_directories E original_targets build prompt s
  = (Value (source_directories buck_out), s2).
Proof.
  intros Hnorm Hbuild Hfirst Hnil. unfold generate_source_directories.
  unfold bind at 1. rewrite Hnorm. unfold bind at 1. rewrite Hbuild.
  unfold bind at 1. rewrite Hfirst. unfold bind, retry. rewrite Hnil.
  change (nonempty (@nil string)) with false. cbv iota. unfold ret at 1.
  simpl fst. simpl snd. unfold finish. rewrite Hnil. reflexivity.
Qed.

(** X20. Unless the rebuild is forced, a first pass with a target not found
    asks the user; a refusal ends the run with the unresolved-targets
    exception, the prompt being the last call made. *)
Theorem declined_prompt_raises_unresolved (original_targets targets : list string)
    (build prompt : bool) (s s1 s1' s2 : state World) (buck_out : BuckOut)
    (w : World) :
  _normalize E original_targets s = (Value targets, s1) ->
  (if build then _build_targets E targets original_targets else ret tt) s1
  = (Value tt, s1') ->
  _find_built_source_directories E targets s1' = (Value buck_out, s2) ->
  targets_not_found buck_out <> [] ->
  negb build && negb prompt = false ->
  get_yes_no_input E "Build target?" (world s2) = (false, w) ->
  generate_source_directories E original_targets build prompt s
  = (Raised (BuckException
               (unresolved_message E
                  (_map_normalized_targets_to_original
                     (targets_not_found buck_out) original_targets))),
     set_world (add_events s2 [prompt_event]) w).
Proof.
  intros Hnorm Hbuild Hfirst Hmissing Hask Hno. unfold generate_source_directories.
  unfold bind at 1. rewrite Hnorm. unfold bind at 1. rewrite Hbuild.
  unfold bind at 1. rewrite Hfirst. unfold bind at 1, retry.
  rewrite (nonempty_true _ Hmissing), Hask. unfold bind at 1.
  rewrite prompt_eq, Hno. simpl fst. simpl snd. cbv iota. unfold ret at 1.
  simpl fst. simpl snd. now apply finish_raises.
Qed.

(** X21. An agreement makes the run go on as in the forced case: rebuild, second
    locator pass, final check. *)
Theorem accepted_prompt_rebuilds (original_targets targets : list string)
    (build prompt : bool) (s s1 s1' s2 : state World) (buck_out : BuckOut)
    (w : World) :
  _normalize E original_targets s = (Value targets, s1) ->
  (if build then _build_targets E targets original_targets else ret tt) s1
  = (Value tt, s1') ->
  _find_built_source_directories E targets s1' = (Value buck_out, s2) ->
  targets_not_found buck_out <> [] ->
  negb build && negb prompt = false ->
  get_yes_no_input E "Build target?" (world s2) = (true, w) ->
  generate_source_directories E original_targets build prompt s
  = (_build_targets E targets original_targets ;;;
     buck_out <- _find_built_source_directories E targets ;;
     finish E original_targets buck_out (source_directories buck_out))
      (set_world (add_events s2 [prompt_event]) w).
Proof.
  intros Hnorm Hbuild Hfirst Hmissing Hask Hyes. unfold generate_source_directories.
  unfold bind at 1. rewrite Hnorm. unfold bind at 1. rewrite Hbuild.
  unfold bind at 1. rewrite Hfirst. unfold bind at 1, retry.
  rewrite (nonempty_true _ Hmissing), Hask. unfold bind at 1.
  rewrite prompt_eq, Hyes. cbn [fst snd]. unfold bind. unfold prompt_event.
  destruct (_build_targets E targets original_targets _) as [[e|u] s3];
    [reflexivity|].
  destruct (_find_built_source_directories E targets s3) as [[e|bo] s4];
    reflexivity.
Qed.

(** X22. Every directory a run returns is in the reply of [glob.glob], in
    the world the run ends in, to the pattern computed from the build root
    found there and one of the normalized targets, and carries none of the
    excluded suffixes.  (Where that pattern lies is another matter: it need
    not lie under the build root.) *)
Theorem returned_directories_are_found (original_targets dirs : list string)
    (build prompt : bool) (s s' : state World) :
  generate_source_directories E original_targets build prompt s = (Value dirs, s') ->
  exists targets buck_root,
    fst (_normalize E original_targets s) = Value targets
    /\ find_root E (os_getcwd E (world s')) ".buckconfig" (world s') = Some buck_root
    /\ forall tree, In tree dirs ->
         Py.endswith_any tree excluded_suffixes = false
         /\ exists target,
              In target targets
              /\ In tree (glob_glob E (glob_pattern buck_root target) (world s')).
Proof.
  intros Hrun.
  destruct (generate_Value_last_pass E _ _ _ _ _ _ Hrun) as (targets & s1 & Hnorm & Hlast).
  rewrite find_built_eq in Hlast. cbv zeta in Hlast.
  destruct (find_root E (os_getcwd E (world s1)) ".buckconfig" (world s1))
    as [buck_root|] eqn:Hroot; [|discriminate].
  injection Hlast as Hdirs _ <-. simpl world.
  exists targets, buck_root. split; [assumption|]. split; [assumption|].
  intros tree Htree. rewrite <- Hdirs in Htree.
  apply located_directories_In in Htree. destruct Htree as (t & Ht & Hd & Hk).
  split; [assumption|]. exists t. split; [now apply sorted_elem|exact Hd].
Qed.

(** X23. The build root is looked for only after the query: where none exists
    the run still queries buck first, and then ends with the locator's
    exception before any glob. *)
Theorem missing_root_found_after_query (original_targets targets : list string)
    (prompt : bool) (s s1 : state World) :
  _normalize E original_targets s = (Value targets, s1) ->
  find_root E (os_getcwd E (world s1)) ".buckconfig" (world s1) = None ->
  exists s',
    generate_source_directories E original_targets false prompt s
    = (Raised (Exception "No .buckconfig found in ancestors of the current directory."),
       s')
    /\ trace s'
       = (trace s ++ [query_event original_targets;
                      Ev_find_root (os_getcwd E (world s1)) ".buckconfig"])%list.
Proof.
  intros Hnorm Hroot. unfold generate_source_directories.
  unfold bind at 1. rewrite Hnorm. unfold bind at 1, ret at 1.
  unfold bind at 1. rewrite find_built_eq. cbv zeta. rewrite Hroot.
  eexists. split; [reflexivity|]. simpl trace.
  pose proof (normalize_trace E original_targets s) as Ht. rewrite Hnorm in Ht.
  simpl in Ht. rewrite Ht. now rewrite <- app_assoc.
Qed.

End RunProperties.

Lemma run_stops_at_failed_query_witness :
  (exists e s',
     generate_source_directories (scripted failing_query_script)
       ["//lib/..."] true true initial
     = (Raised e, s')
     /\ trace s' = ([] ++ [query_event ["//lib/..."]])%list
     /\ world s' = 0
     /\ exists message, e = BuckException message)
  /\ (exists e s',
        generate_source_directories (scripted silent_hanging_query_script)
          ["//lib/..."] true true initial
        = (Raised e, s')
        /\ trace s' = ([] ++ [query_event ["//lib/..."]])%list
        /\ world s' = 0
        /\ e = AttributeError "'NoneType' object has no attribute 'decode'").
Proof.
  split.
  - apply (run_stops_at_failed_query (scripted failing_query_script) ["//lib/..."]
             true true initial
             (Finished (CalledProcessError 1 "No build file at lib/BUCK")) 0).
    + reflexivity.
    + discriminate.
  - apply (run_stops_at_failed_query (scripted silent_hanging_query_script)
             ["//lib/..."] true true initial (TimeoutExpired None) 0).
    + reflexivity.
    + discriminate.
Defined.

Lemma run_returns_first_pass_witness :
  fst (generate_source_directories (scripted built_script)
         ["//app:bin"] false true initial)
  = Value ["/repo/buck-out/gen/app/bin#link-tree"].
Proof.
  pose (s1 := snd (_normalize (scripted built_script) ["//app:bin"] initial)).
  pose (s2 := snd (_find_built_source_directories (scripted built_script)
                     ["//app:bin"] s1)).
  rewrite (run_returns_first_pass (scripted built_script) ["//app:bin"] ["//app:bin"]
             false true initial s1 s1 s2
             {| source_directories := ["/repo/buck-out/gen/app/bin#link-tree"];
                targets_not_found := [] |}).
  - reflexivity.
  - vm_compute. reflexivity.
  - reflexivity.
  - vm_compute. reflexivity.
  - reflexivity.
Defined.

Lemma declined_prompt_raises_unresolved_witness :
  fst (generate_source_directories (scripted unbuilt_script)
         ["//app/..."] false true initial)
  = Raised (BuckException
              (unresolved_message (scripted unbuilt_script)
                 (_map_normalized_targets_to_original ["//app:bin"] ["//app/..."]))).
Proof.
  pose (s1 := snd (_normalize (scripted unbuilt_script) ["//app/..."] initial)).
  pose (s2 := snd (_find_built_source_directories (scripted unbuilt_script)
                     ["//app:bin"] s1)).
  rewrite (declined_prompt_raises_unresolved (scripted unbuilt_script)
             ["//app/..."] ["//app:bin"] false true initial s1 s1 s2
             {| source_directories := []; targets_not_found := ["//app:bin"] |} 0).
  - reflexivity.
  - vm_compute. reflexivity.
  - reflexivity.
  - vm_compute. reflexivity.
  - simpl. discriminate.
  - reflexivity.
  - reflexivity.
Defined.

Lemma accepted_prompt_rebuilds_witness :
  fst (generate_source_directories (scripted accepting_script)
         ["//app:bin"] false true initial)
  = Value ["/repo/buck-out/gen/app/bin#link-tree"].
Proof.
  pose (s1 := snd (_normalize (scripted accepting_script) ["//app:bin"] initial)).
  pose (s2 := snd (_find_built_source_directories (scripted accepting_script)
                     ["//app:bin"] s1)).
  rewrite (accepted_prompt_rebuilds (scripted accepting_script)
             ["//app:bin"] ["//app:bin"] false true initial s1 s1 s2
             {| source_directories := []; targets_not_found := ["//app:bin"] |} 0).
  - vm_compute. reflexivity.
  - vm_compute. reflexivity.
  - reflexivity.
  - vm_compute. reflexivity.
  - simpl. discriminate.
  - reflexivity.
  - reflexivity.
Defined.

Lemma returned_directories_are_found_witness :
  exists targets buck_root,
    fst (_normalize (scripted built_script) ["//app:bin"] initial) = Value targets
    /\ buck_root = "/repo"
    /\ forall tree, In tree ["/repo/buck-out/gen/app/bin#link-tree"] ->
         Py.endswith_any tree excluded_suffixes = false.
Proof.
  destruct (returned_directories_are_found (scripted built_script) ["//app:bin"]
              ["/repo/buck-out/gen/app/bin#link-tree"] false true initial
              (snd (generate_source_directories (scripted built_script)
                      ["//app:bin"] false true initial)))
    as (targets & buck_root & Hnorm & Hroot & Htrees).
  - vm_compute. reflexivity.
  - exists targets, buck_root. split; [exact Hnorm|]. split.
    + simpl in Hroot. now injection Hroot as <-.
    + intros tree Htree. exact (proj1 (Htrees tree Htree)).
Defined.

Lemma missing_root_found_after_query_witness :
  exists s',
    generate_source_directories (scripted no_root_script) ["//app:bin"] false true initial
    = (Raised (Exception "No .buckconfig found in ancestors of the current directory."),
       s')
    /\ trace s'
       = ([] ++ [query_event ["//app:bin"];
                 Ev_find_root "/repo/project" ".buckconfig"])%list.
Proof.
  apply (missing_root_found_after_query (scripted no_root_script) ["//app:bin"]
           ["//app:bin"] true initial
           (snd (_normalize (scripted no_root_script) ["//app:bin"] initial))).
  - vm_compute. reflexivity.
  - reflexivity.
Defined.

(** ** [presumed_target_root]: properties *)

Section PresumedRoot.

Lemma replace_go_cons (old new : string) (a : ascii) (s : string) :
  Py.replace_go old new (String a s) 0
  = if String.prefix old (String a s)
    then new ++ Py.replace_go old new s (String.length old - 1)
    else String a (Py.replace_go old new s 0).
Proof. reflexivity. Qed.

Lemma prefix_nil_r (a : ascii) (s : string) : String.prefix (String a s) "" = false.
Proof. reflexivity. Qed.

(** No [/...] starts inside text free of dots that is not followed by a
    dot. *)
Lemma replace_wild_through (package rest : string) :
  mem_char "." package = false ->
  String.prefix "." rest = false ->
  Py.replace_go "/..." "" (package ++ rest) 0
  = package ++ Py.replace_go "/..." "" rest 0.
Proof.
  induction package as [|a package IH]; intros Hdot Hrest; [reflexivity|].
  rewrite append_cons, replace_go_cons. rewrite mem_char_cons in Hdot.
  apply orb_false_elim in Hdot. destruct Hdot as [_ Hdot].
  assert (Hno : String.prefix "/..." (String a (package ++ rest)) = false).
  { rewrite prefix_cons. destruct (ascii_dec "/" a); [|reflexivity].
    destruct package as [|b package].
    - change ("" ++ rest) with rest. destruct rest as [|b rest]; [reflexivity|].
      rewrite prefix_cons in *. destruct (ascii_dec "." b); [|reflexivity].
      now destruct rest.
    - rewrite append_cons, prefix_cons. rewrite mem_char_cons in Hdot.
      destruct (ascii_dec "." b); [discriminate Hdot|reflexivity]. }
  rewrite Hno, IH by assumption. now rewrite append_cons.
Qed.

Lemma replace_wild_absent (s : string) :
  mem_char "/" s = false -> Py.replace s "/..." "" = s.
Proof.
  unfold Py.replace. induction s as [|a s IH]; intros H; [reflexivity|].
  rewrite replace_go_cons, prefix_cons. rewrite mem_char_cons in H.
  destruct (ascii_dec "/" a); [discriminate H|]. now rewrite IH.
Qed.

(** X24. The presumed root never holds a colon. *)
Theorem presumed_root_holds_no_colon (target : string) :
  mem_char ":" (presumed_target_root target) = false.
Proof. unfold presumed_target_root. apply (split_head ":"). Qed.

(** X25. The presumed root of [cell//package:name] is [package]. *)
Theorem presumed_root_of_cell_target (cell package name : string) :
  mem_char "/" cell = false ->
  mem_char "." package = false ->
  mem_char ":" package = false ->
  mem_char "/" name = false ->
  presumed_target_root (cell ++ "//" ++ package ++ ":" ++ name) = package.
Proof.
  intros Hcell Hdot Hcolon Hname. unfold presumed_target_root.
  destruct (find_double_slash cell (package ++ ":" ++ name) Hcell) as [Hfind Hslice].
  rewrite Hfind, Hslice.
  replace (Z.of_nat (String.length cell) =? -1)%Z with false
    by (symmetry; apply Z.eqb_neq; lia).
  simpl negb. cbv iota.
  unfold Py.replace. rewrite replace_wild_through by (assumption || reflexivity).
  fold (Py.replace (":" ++ name) "/..." "").
  rewrite replace_wild_absent by exact Hname.
  change (":" ++ name) with (String ":" name).
  now apply (split_head_piece ":").
Qed.

(** X26. The presumed root of the wildcard pattern [cell//package/...] is
    [package]. *)
Theorem presumed_root_of_wildcard (cell package : string) :
  mem_char "/" cell = false ->
  mem_char "." package = false ->
  mem_char ":" package = false ->
  presumed_target_root (cell ++ "//" ++ package ++ "/...") = package.
Proof.
  intros Hcell Hdot Hcolon. unfold presumed_target_root.
  destruct (find_double_slash cell (package ++ "/...") Hcell) as [Hfind Hslice].
  rewrite Hfind, Hslice.
  replace (Z.of_nat (String.length cell) =? -1)%Z with false
    by (symmetry; apply Z.eqb_neq; lia).
  simpl negb. cbv iota.
  unfold Py.replace. rewrite replace_wild_through by (assumption || reflexivity).
  change (Py.replace_go "/..." "" "/..." 0) with "". rewrite append_nil_r.
  now apply (split_head_whole ":").
Qed.

End PresumedRoot.

Lemma presumed_root_of_cell_target_witness :
  presumed_target_root ("fbcode" ++ "//" ++ "lib/x" ++ ":" ++ "b.par") = "lib/x".
Proof.
  apply (presumed_root_of_cell_target "fbcode" "lib/x" "b.par"); reflexivity.
Defined.

Lemma presumed_root_of_wildcard_witness :
  presumed_target_root ("" ++ "//" ++ "lib/x" ++ "/...") = "lib/x".
Proof.
  apply (presumed_root_of_wildcard "" "lib/x"); reflexivity.
Defined.

Lemma attribution_covers_without_duplicates_witness :
  In (mapped_name "//lib/x:b" ["//lib/..."; "//app:bin"])
    (_map_normalized_targets_to_original ["//lib:a"; "//lib/x:b"; "//tools:t"]
       ["//lib/..."; "//app:bin"])
  /\ length (_map_normalized_targets_to_original ["//lib:a"; "//lib/x:b"; "//tools:t"]
               ["//lib/..."; "//app:bin"]) <= 3.
Proof.
  destruct (attribution_covers_without_duplicates
              ["//lib:a"; "//lib/x:b"; "//tools:t"] ["//lib/..."; "//app:bin"])
    as (_ & Hlen & Hcover & _).
  split; [|exact Hlen].
  apply Hcover. right. now left.
Defined.

